(** * ChromatekSwitch: the RGB push-button controller of chromatek_switch.py

    The controller is a thin object over two platform libraries,
    [rpi_ws281x] (the pixel strip) and [RPi.GPIO] (the button line).  Its
    methods are embedded as programs that issue calls to those libraries and
    invoke the registered listeners; the answers of the libraries (a value or
    a raised exception) come from a handler, so every statement about the
    controller holds for whatever the platform does. *)

From Stdlib Require Import ZArith List String Bool Lia.
Import ListNotations.
Open Scope Z_scope.

(** ** Values exchanged with the platform libraries *)

(** A listener is a zero-argument Python callable; it is identified by name. *)
Definition Callback := string.

(** The [PixelStrip] object created by the constructor. *)
Definition StripHandle := nat.

(** [Color(red, green, blue)] of rpi_ws281x, kept symbolic: the controller
    only builds it and hands it over. *)
Inductive PixelValue := Color (red green blue : Z).

Inductive GpioMode := BCM | BOARD.
Inductive GpioDirection := IN | OUT.
Inductive GpioPull := PUD_OFF | PUD_DOWN | PUD_UP.
Inductive GpioEdge := RISING | FALLING | BOTH.

(** chromatek_switch.py:109 "GPIO.LOW (0) when pressed". *)
Definition GPIO_LOW : Z := 0.
Definition GPIO_HIGH : Z := 1.

(** The calls that leave the controller.  [PixelStrip_cleanup] is the
    library's release of a strip; it is listed so that its absence from the
    controller's call sequences can be stated. *)
Inductive Call :=
| PixelStrip_new (num pin freq_hz dma : Z) (invert : bool) (brightness channel : Z)
| PixelStrip_begin (s : StripHandle)
| PixelStrip_setPixelColor (s : StripHandle) (n : Z) (color : PixelValue)
| PixelStrip_show (s : StripHandle)
| PixelStrip_setBrightness (s : StripHandle) (brightness : Z)
| PixelStrip_cleanup (s : StripHandle)
| GPIO_setmode (mode : GpioMode)
| GPIO_setup (pin : Z) (direction : GpioDirection) (pull_up_down : GpioPull)
| GPIO_input (pin : Z)
| GPIO_add_event_detect (pin : Z) (edge : GpioEdge) (bouncetime : Z)
| GPIO_cleanup
| Invoke (callback : Callback).

Definition ret_type (c : Call) : Type :=
  match c with
  | PixelStrip_new _ _ _ _ _ _ _ => StripHandle
  | GPIO_input _ => Z
  | _ => unit
  end.

(** Calls that give a hardware resource back. *)
Definition is_release (c : Call) : bool :=
  match c with
  | PixelStrip_cleanup _ | GPIO_cleanup => true
  | _ => false
  end.

Definition is_strip_release (c : Call) : bool :=
  match c with
  | PixelStrip_cleanup _ => true
  | _ => false
  end.

Definition is_subscription (c : Call) : bool :=
  match c with
  | GPIO_add_event_detect _ _ _ => true
  | _ => false
  end.

Definition is_sampling (c : Call) : bool :=
  match c with
  | GPIO_input _ => true
  | _ => false
  end.

(** The listeners invoked in a sequence of calls, in order. *)
Fixpoint invocations (log : list Call) : list Callback :=
  match log with
  | [] => []
  | Invoke cb :: log' => cb :: invocations log'
  | _ :: log' => invocations log'
  end.

(** The parts of the outcome of a run: the calls made, the platform
    afterwards, the object afterwards and the value or exception. *)
Definition calls {W R} (r : list Call * W * R) : list Call := fst (fst r).
Definition world {W R} (r : list Call * W * R) : W := snd (fst r).
Definition self_after {W S X} (r : list Call * W * (S * X)) : S := fst (snd r).
Definition result {W S X} (r : list Call * W * (S * X)) : X := snd (snd r).

(** ** The attributes of a controller object (chromatek_switch.py:41-62) *)

Record ChromatekSwitch := mkSwitch {
  LED_BRIGHTNESS : Z;
  strip : StripHandle;
  _press_callbacks : list Callback;
  _release_callbacks : list Callback;
  _button_event_added : bool
}.

(** Class constants (chromatek_switch.py:23-32). *)
Definition LED_COUNT : Z := 1.
Definition LED_PIN : Z := 18.
Definition LED_FREQ_HZ : Z := 800000.
Definition LED_DMA : Z := 10.
Definition LED_INVERT : bool := false.
Definition LED_CHANNEL : Z := 0.
Definition BUTTON_PIN : Z := 23.

(** The two transition kinds and their listener collections. *)
Inductive Transition := Pressed | Released.

Definition listeners (k : Transition) (sw : ChromatekSwitch) : list Callback :=
  match k with
  | Pressed => _press_callbacks sw
  | Released => _release_callbacks sw
  end.

(** Active-low classification of a raw level, as [get_button_state] does. *)
Definition transition_of_level (level : Z) : Transition :=
  if level =? GPIO_LOW then Pressed else Released.

(** How the body of a [with] block ends when it does not raise. *)
Inductive Completion (A : Type) :=
| Normal
| Return (v : A).
Arguments Normal {A}.
Arguments Return {A} v.

Section Controller.

(** The exceptions of the platform libraries and of the listeners.  The
    controller has no [raise] of its own. *)
Variable Exn : Type.

(** ** Programs *)

Inductive Prog (R : Type) : Type :=
| Ret (r : R)
| Vis (c : Call) (k : Exn + ret_type c -> Prog R).
Arguments Ret {R} r.
Arguments Vis {R} c k.

Fixpoint pbind {A B : Type} (p : Prog A) (f : A -> Prog B) : Prog B :=
  match p with
  | Ret a => f a
  | Vis c k => Vis c (fun x => pbind (k x) f)
  end.

(** A method body: it reads and updates the object [S] it runs on, and ends
    with a value or with the exception that is propagating. *)
Definition M (S A : Type) : Type := S -> Prog (S * (Exn + A)).

Definition ret {S A} (a : A) : M S A := fun s => Ret (s, inr a).

Definition bind {S A B} (m : M S A) (f : A -> M S B) : M S B :=
  fun s => pbind (m s) (fun sr =>
    match snd sr with
    | inl e => Ret (fst sr, inl e)
    | inr a => f a (fst sr)
    end).

Definition call {S} (c : Call) : M S (ret_type c) :=
  fun s => Vis c (fun x => Ret (s, x)).

Definition gets {S A} (f : S -> A) : M S A := fun s => Ret (s, inr (f s)).

Definition modify {S} (f : S -> S) : M S unit := fun s => Ret (f s, inr tt).

Definition raise {S A} (e : Exn) : M S A := fun s => Ret (s, inl e).

(** [try: m except: ...]: the outcome of [m] as a value. *)
Definition try_ {S A} (m : M S A) : M S (Exn + A) :=
  fun s => pbind (m s) (fun sr => Ret (fst sr, inr (snd sr))).

Notation "x <- m ;; k" := (bind m (fun x => k))
  (at level 100, m at next level, right associativity).
Notation "m ;; k" := (bind m (fun _ => k))
  (at level 100, right associativity).

(** [for x in l: body x] *)
Fixpoint for_each {S A} (l : list A) (body : A -> M S unit) : M S unit :=
  match l with
  | [] => ret tt
  | x :: l' => body x ;; for_each l' body
  end.

(** ** Running a program on a platform *)

Section Run.
Variable W : Type.

Definition Handler : Type := forall c : Call, W -> W * (Exn + ret_type c).

Variable h : Handler.

(** The calls made, the platform afterwards, and the result. *)
Fixpoint run {R : Type} (p : Prog R) (w : W) : list Call * W * R :=
  match p with
  | Ret r => ([], w, r)
  | Vis c k =>
      let wx := h c w in
      let res := run (k (snd wx)) (fst wx) in
      (c :: fst (fst res), snd (fst res), snd res)
  end.

End Run.

(** ** The methods of ChromatekSwitch *)

(** chromatek_switch.py:34-62; [brightness] defaults to 255.  The object
    exists for the caller only when every step returned. *)
Definition __init__ (brightness : Z) : M unit ChromatekSwitch :=
  s <- call (PixelStrip_new LED_COUNT LED_PIN LED_FREQ_HZ LED_DMA
                            LED_INVERT brightness LED_CHANNEL) ;;
  call (PixelStrip_begin s) ;;
  call (GPIO_setmode BCM) ;;
  call (GPIO_setup BUTTON_PIN IN PUD_UP) ;;
  ret {| LED_BRIGHTNESS := brightness;
         strip := s;
         _press_callbacks := [];
         _release_callbacks := [];
         _button_event_added := false |}.

(** chromatek_switch.py:64-75 *)
Definition set_color (red green blue : Z) : M ChromatekSwitch unit :=
  let color := Color red green blue in
  s <- gets strip ;;
  call (PixelStrip_setPixelColor s 0 color) ;;
  call (PixelStrip_show s).

(** chromatek_switch.py:77-86; the arguments default to 255. *)
Definition turn_on (red green blue : Z) : M ChromatekSwitch unit :=
  set_color red green blue.

(** chromatek_switch.py:88-90 *)
Definition turn_off : M ChromatekSwitch unit :=
  set_color 0 0 0.

(** chromatek_switch.py:92-100 *)
Definition set_brightness (brightness : Z) : M ChromatekSwitch unit :=
  s <- gets strip ;;
  call (PixelStrip_setBrightness s brightness) ;;
  call (PixelStrip_show s).

(** chromatek_switch.py:102-110 *)
Definition get_button_state : M ChromatekSwitch bool :=
  level <- call (GPIO_input BUTTON_PIN) ;;
  ret (level =? GPIO_LOW).

(** chromatek_switch.py:132-141 *)
Definition _setup_button_events : M ChromatekSwitch unit :=
  added <- gets _button_event_added ;;
  if negb added then
    call (GPIO_add_event_detect BUTTON_PIN BOTH 200) ;;
    modify (fun self => mkSwitch (LED_BRIGHTNESS self) (strip self)
                          (_press_callbacks self) (_release_callbacks self) true)
  else ret tt.

(** chromatek_switch.py:112-120 *)
Definition on_button_press (callback : Callback) : M ChromatekSwitch unit :=
  modify (fun self => mkSwitch (LED_BRIGHTNESS self) (strip self)
                        (_press_callbacks self ++ [callback])
                        (_release_callbacks self) (_button_event_added self)) ;;
  _setup_button_events.

(** chromatek_switch.py:122-130 *)
Definition on_button_release (callback : Callback) : M ChromatekSwitch unit :=
  modify (fun self => mkSwitch (LED_BRIGHTNESS self) (strip self)
                        (_press_callbacks self)
                        (_release_callbacks self ++ [callback])
                        (_button_event_added self)) ;;
  _setup_button_events.

(** chromatek_switch.py:143-152.  [channel] is not used.  What a listener
    does when invoked (driving the LED, raising) is the platform's answer to
    [Invoke]; a listener that registers listeners on this controller during
    the loop is not covered. *)
Definition _button_event_handler (channel : Z) : M ChromatekSwitch unit :=
  pressed <- get_button_state ;;
  if pressed then
    callbacks <- gets _press_callbacks ;;
    for_each callbacks (fun callback => call (Invoke callback))
  else
    callbacks <- gets _release_callbacks ;;
    for_each callbacks (fun callback => call (Invoke callback)).

(** chromatek_switch.py:154-157 *)
Definition cleanup : M ChromatekSwitch unit :=
  turn_off ;;
  call GPIO_cleanup.

(** chromatek_switch.py:159-161 *)
Definition __enter__ : M ChromatekSwitch ChromatekSwitch :=
  gets (fun self => self).

(** chromatek_switch.py:163-165.  The three exception arguments are one
    option; the method returns [None]. *)
Definition __exit__ (exc : option Exn) : M ChromatekSwitch unit :=
  cleanup.

(** ** Callers *)

(** [with switch: body] on a constructed controller: [__exit__] runs when the
    body falls through, returns early, or raises; since [__exit__] returns
    [None] the exception of the body is raised again afterwards. *)
Definition with_statement {A} (body : M ChromatekSwitch (Completion A))
  : M ChromatekSwitch (Completion A) :=
  _ <- __enter__ ;;
  outcome <- try_ body ;;
  match outcome with
  | inr completion => __exit__ None ;; ret completion
  | inl e => __exit__ (Some e) ;; raise e
  end.

(** A listener registration, and straight-line sequences of them. *)
Definition register (r : Transition * Callback) : M ChromatekSwitch unit :=
  match fst r with
  | Pressed => on_button_press (snd r)
  | Released => on_button_release (snd r)
  end.

Definition register_all (rs : list (Transition * Callback))
  : M ChromatekSwitch unit :=
  for_each rs register.

(** The listeners of kind [k] among registrations, in registration order. *)
Definition registered (k : Transition) (rs : list (Transition * Callback))
  : list Callback :=
  map snd (filter (fun r => match fst r, k with
                            | Pressed, Pressed | Released, Released => true
                            | _, _ => false
                            end) rs).

End Controller.

Arguments Ret {Exn R} r.
Arguments Vis {Exn R} c k.
Arguments pbind {Exn A B} p f.
Arguments ret {Exn S A} a.
Arguments bind {Exn S A B} m f.
Arguments call {Exn S} c.
Arguments gets {Exn S A} f.
Arguments modify {Exn S} f.
Arguments raise {Exn S A} e.
Arguments try_ {Exn S A} m.
Arguments for_each {Exn S A} l body.
Arguments run {Exn W} h {R} p w.
Arguments __init__ {Exn} brightness.
Arguments set_color {Exn} red green blue.
Arguments turn_on {Exn} red green blue.
Arguments turn_off {Exn}.
Arguments set_brightness {Exn} brightness.
Arguments get_button_state {Exn}.
Arguments _setup_button_events {Exn}.
Arguments on_button_press {Exn} callback.
Arguments on_button_release {Exn} callback.
Arguments _button_event_handler {Exn} channel.
Arguments cleanup {Exn}.
Arguments __enter__ {Exn}.
Arguments __exit__ {Exn} exc.
Arguments with_statement {Exn A} body.
Arguments register {Exn} r.
Arguments register_all {Exn} rs.

(** ** A bench platform

    A small executable stand-in for the two libraries, used to run the
    controller on concrete inputs.  [faults] tells which calls the hardware
    refuses; a strip is live from [begin] until the library's own cleanup;
    [GPIO.cleanup] forgets the numbering mode, the configured channels and
    the edge subscriptions. *)

Inductive PyError :=
| RuntimeError (msg : string)
| OverflowError (msg : string).

Record Strip := mkStrip {
  strip_live : bool;
  strip_brightness : Z;
  led_data : list Z;
  shown : option (list Z * Z)
}.

Record World := mkWorld {
  strips : list Strip;
  gpio_mode : option GpioMode;
  gpio_channels : list Z;
  gpio_events : list (Z * GpioEdge * Z);
  button_line : Z;
  faults : Call -> bool
}.

(** The 32-bit value rpi_ws281x transmits for a color. *)
Definition pack (c : PixelValue) : Z :=
  match c with
  | Color r g b => Z.lor (Z.lor (Z.shiftl r 16) (Z.shiftl g 8)) b
  end.

Fixpoint update_nth {A} (n : nat) (x : A) (l : list A) : list A :=
  match l, n with
  | [], _ => []
  | _ :: l', O => x :: l'
  | y :: l', S n' => y :: update_nth n' x l'
  end.

Definition with_strips (w : World) (ss : list Strip) : World :=
  mkWorld ss (gpio_mode w) (gpio_channels w) (gpio_events w)
          (button_line w) (faults w).

Definition set_button_line (level : Z) (w : World) : World :=
  mkWorld (strips w) (gpio_mode w) (gpio_channels w) (gpio_events w)
          level (faults w).

(** A call on a live strip. *)
Definition on_strip {R} (w : World) (s : StripHandle)
  (f : Strip -> PyError + Strip) (r : R) : World * (PyError + R) :=
  match nth_error (strips w) s with
  | Some st =>
      if strip_live st then
        match f st with
        | inr st' => (with_strips w (update_nth s st' (strips w)), inr r)
        | inl e => (w, inl e)
        end
      else (w, inl (RuntimeError "strip not initialised"))
  | None => (w, inl (RuntimeError "no such strip"))
  end.

Definition membZ (x : Z) (l : list Z) : bool := existsb (Z.eqb x) l.

Definition platform (c : Call) (w : World) : World * (PyError + ret_type c) :=
  if faults w c then (w, inl (RuntimeError "hardware fault")) else
  match c as c0 return World * (PyError + ret_type c0) with
  | PixelStrip_new num _ _ _ _ brightness _ =>
      if (0 <=? brightness) && (brightness <=? 255) then
        (with_strips w (strips w ++
           [mkStrip false brightness (repeat 0 (Z.to_nat num)) None]),
         inr (List.length (strips w)))
      else (w, inl (OverflowError "brightness"))
  | PixelStrip_begin s =>
      match nth_error (strips w) s with
      | Some st =>
          (with_strips w (update_nth s
             (mkStrip true (strip_brightness st) (led_data st) (shown st))
             (strips w)), inr tt)
      | None => (w, inl (RuntimeError "no such strip"))
      end
  | PixelStrip_setPixelColor s n color =>
      on_strip w s (fun st =>
        if (0 <=? pack color) && (pack color <? 2 ^ 32) then
          inr (mkStrip true (strip_brightness st)
                 (if 0 <=? n then update_nth (Z.to_nat n) (pack color) (led_data st)
                  else led_data st)
                 (shown st))
        else inl (OverflowError "color")) tt
  | PixelStrip_show s =>
      on_strip w s (fun st =>
        inr (mkStrip true (strip_brightness st) (led_data st)
               (Some (led_data st, strip_brightness st)))) tt
  | PixelStrip_setBrightness s b =>
      on_strip w s (fun st =>
        if (0 <=? b) && (b <=? 255) then
          inr (mkStrip true b (led_data st) (shown st))
        else inl (OverflowError "brightness")) tt
  | PixelStrip_cleanup s =>
      match nth_error (strips w) s with
      | Some st =>
          (with_strips w (update_nth s
             (mkStrip false (strip_brightness st) (led_data st) (shown st))
             (strips w)), inr tt)
      | None => (w, inl (RuntimeError "no such strip"))
      end
  | GPIO_setmode mode =>
      (mkWorld (strips w) (Some mode) (gpio_channels w) (gpio_events w)
               (button_line w) (faults w), inr tt)
  | GPIO_setup pin _ _ =>
      match gpio_mode w with
      | Some _ =>
          (mkWorld (strips w) (gpio_mode w) (pin :: gpio_channels w)
                   (gpio_events w) (button_line w) (faults w), inr tt)
      | None => (w, inl (RuntimeError "numbering mode not set"))
      end
  | GPIO_input pin =>
      if membZ pin (gpio_channels w) then (w, inr (button_line w))
      else (w, inl (RuntimeError "channel not set up"))
  | GPIO_add_event_detect pin edge bouncetime =>
      if membZ pin (gpio_channels w) then
        if membZ pin (map (fun e => fst (fst e)) (gpio_events w)) then
          (w, inl (RuntimeError "conflicting edge detection"))
        else
          (mkWorld (strips w) (gpio_mode w) (gpio_channels w)
                   ((pin, edge, bouncetime) :: gpio_events w)
                   (button_line w) (faults w), inr tt)
      else (w, inl (RuntimeError "channel not set up"))
  | GPIO_cleanup =>
      (mkWorld (strips w) None [] [] (button_line w) (faults w), inr tt)
  | Invoke _ => (w, inr tt)
  end.

Definition no_faults : Call -> bool := fun _ => false.

(** Power-on state: nothing created, the pull-up holds the line HIGH. *)
Definition power_on (f : Call -> bool) : World :=
  mkWorld [] None [] [] GPIO_HIGH f.

(** The strips that are live in a world. *)
Definition live_strips (w : World) : list bool := map strip_live (strips w).

(** What the LEDs of the strips show after the last [show]. *)
Definition displayed (w : World) : list (option (list Z * Z)) :=
  map shown (strips w).

(** ** Edge notifications

    A sample is a notification delivered to the subscribed handler: the
    time of delivery and the raw level the line has when the handler reads
    it.  The library's notification thread calls the handler once per
    notification. *)

Record Sample := mkSample { time_ms : Z; raw : Z }.

Fixpoint deliver (samples : list Sample) (sw : ChromatekSwitch) (w : World)
  : list Call * World * ChromatekSwitch :=
  match samples with
  | [] => ([], w, sw)
  | s :: rest =>
      let r := run platform (_button_event_handler BUTTON_PIN sw)
                   (set_button_line (raw s) w) in
      let r' := deliver rest (fst (snd r)) (snd (fst r)) in
      (fst (fst r) ++ fst (fst r'), snd (fst r'), snd r')
  end.

(** RPi.GPIO's [bouncetime]: an edge that comes no later than [bouncetime]
    ms after the last edge the library delivered is dropped by the library,
    before the handler is called. *)
Fixpoint debounced (bouncetime : Z) (last : option Z) (samples : list Sample)
  : list Sample :=
  match samples with
  | [] => []
  | s :: rest =>
      match last with
      | Some t0 =>
          if time_ms s - t0 <=? bouncetime
          then debounced bouncetime last rest
          else s :: debounced bouncetime (Some (time_ms s)) rest
      | None => s :: debounced bouncetime (Some (time_ms s)) rest
      end
  end.

(** ** The detector as the specification words it

    A recorded logical state (initially Released) and the time of the last
    accepted transition; a sample is accepted when its state differs from
    the recorded one and the window has elapsed since the last accepted
    one. *)

Record Detector := mkDetector {
  recorded : Transition;
  last_accepted : option Z
}.

Definition same_transition (a b : Transition) : bool :=
  match a, b with
  | Pressed, Pressed | Released, Released => true
  | _, _ => false
  end.

Definition spec_detector_step (window : Z) (d : Detector) (s : Sample)
  : Detector * option Transition :=
  let computed := transition_of_level (raw s) in
  let elapsed :=
    match last_accepted d with
    | None => true
    | Some t0 => window <=? time_ms s - t0
    end in
  if negb (same_transition computed (recorded d)) && elapsed
  then (mkDetector computed (Some (time_ms s)), Some computed)
  else (d, None).

Fixpoint spec_detector (window : Z) (d : Detector) (samples : list Sample)
  : list Transition :=
  match samples with
  | [] => []
  | s :: rest =>
      match spec_detector_step window d s with
      | (d', Some k) => k :: spec_detector window d' rest
      | (d', None) => spec_detector window d' rest
      end
  end.

Definition spec_dispatches (sw : ChromatekSwitch) (samples : list Sample)
  : list Callback :=
  List.concat (map (fun k => listeners k sw)
              (spec_detector 200 (mkDetector Released None) samples)).

(** A hardware that refuses to configure the button line. *)
Definition setup_refused (c : Call) : bool :=
  match c with
  | GPIO_setup _ _ _ => true
  | _ => false
  end.

(** The bench right after a successful construction with the default
    brightness, and the controller it returned. *)
Definition bench : World :=
  world (run platform (__init__ 255 tt) (power_on no_faults)).

Definition fresh_switch : ChromatekSwitch := mkSwitch 255 0%nat [] [] false.

(** The object after [callback] was appended to the collection of kind [k],
    and after the subscription flag was set. *)
Definition append_listener (r : Transition * Callback) (sw : ChromatekSwitch)
  : ChromatekSwitch :=
  match fst r with
  | Pressed =>
      mkSwitch (LED_BRIGHTNESS sw) (strip sw) (_press_callbacks sw ++ [snd r])
               (_release_callbacks sw) (_button_event_added sw)
  | Released =>
      mkSwitch (LED_BRIGHTNESS sw) (strip sw) (_press_callbacks sw)
               (_release_callbacks sw ++ [snd r]) (_button_event_added sw)
  end.

Definition subscribed (sw : ChromatekSwitch) : ChromatekSwitch :=
  mkSwitch (LED_BRIGHTNESS sw) (strip sw) (_press_callbacks sw)
           (_release_callbacks sw) true.

Definition append_all (rs : list (Transition * Callback)) (sw : ChromatekSwitch)
  : ChromatekSwitch :=
  fold_left (fun s r => append_listener r s) rs sw.

(** The one subscription request the controller makes. *)
Definition subscription : Call := GPIO_add_event_detect BUTTON_PIN BOTH 200.

(** The library calls of the LED methods and of the constructor. *)
Definition led_write (sw : ChromatekSwitch) (red green blue : Z) : Call :=
  PixelStrip_setPixelColor (strip sw) 0 (Color red green blue).

Definition led_show (sw : ChromatekSwitch) : Call := PixelStrip_show (strip sw).

Definition led_dim (sw : ChromatekSwitch) (brightness : Z) : Call :=
  PixelStrip_setBrightness (strip sw) brightness.

Definition strip_new (brightness : Z) : Call :=
  PixelStrip_new LED_COUNT LED_PIN LED_FREQ_HZ LED_DMA LED_INVERT
                 brightness LED_CHANNEL.

Definition button_setup : Call := GPIO_setup BUTTON_PIN IN PUD_UP.

Definition construction_calls (brightness : Z) (s : StripHandle) : list Call :=
  [strip_new brightness; PixelStrip_begin s; GPIO_setmode BCM; button_setup].

Definition cleanup_calls (sw : ChromatekSwitch) : list Call :=
  [led_write sw 0 0 0; led_show sw; GPIO_cleanup].

(** The controller of the event-driven example of chromatek_test.py, after
    both of its registrations. *)
Definition demo_switch : ChromatekSwitch :=
  mkSwitch 255 0%nat ["on_press"%string] ["on_release"%string] true.

(** LOW, LOW, HIGH, LOW within 30 ms, and LOW twice 250 ms apart. *)
Definition bounce_samples : list Sample :=
  [mkSample 0 GPIO_LOW; mkSample 10 GPIO_LOW;
   mkSample 20 GPIO_HIGH; mkSample 30 GPIO_LOW].

Definition repeat_samples : list Sample :=
  [mkSample 0 GPIO_LOW; mkSample 250 GPIO_LOW].

(** The bench with the button held down. *)
Definition pressed_bench : World := set_button_line GPIO_LOW bench.

(** Three press listeners, and the same callback registered twice. *)
Definition three_press : list (Transition * Callback) :=
  [(Pressed, "first"%string); (Pressed, "second"%string);
   (Pressed, "third"%string)].

Definition twice_press : list (Transition * Callback) :=
  [(Pressed, "beep"%string); (Pressed, "beep"%string)].

(** The registrations of the event-driven example followed by [cleanup]. *)
Definition example_registrations : list (Transition * Callback) :=
  [(Pressed, "on_press"%string); (Released, "on_release"%string)].

Definition after_release
  : list Call * World * (ChromatekSwitch * (PyError + unit)) :=
  run platform
      (bind (register_all example_registrations) (fun _ => cleanup) fresh_switch)
      bench.

Definition released_switch : ChromatekSwitch := self_after after_release.
Definition released_world : World := world after_release.

(** ** Callers

    Arbitrary use of a constructed controller, the scoped construction
    [with ChromatekSwitch() as switch: ...] that every example of
    chromatek_test.py starts with, and the bodies of two of these examples.
    Console output and [time.sleep] have no counterpart among the library
    calls and are left out. *)

(** One use of the object: a method call by the application, or a
    notification by which the library calls the handler. *)
Inductive Op :=
| Op_set_color (red green blue : Z)
| Op_turn_on (red green blue : Z)
| Op_turn_off
| Op_set_brightness (brightness : Z)
| Op_get_button_state
| Op_on_button_press (callback : Callback)
| Op_on_button_release (callback : Callback)
| Op_button_event (channel : Z)
| Op_cleanup.

(** The methods that drive the LED. *)
Definition led_op (o : Op) : bool :=
  match o with
  | Op_set_color _ _ _ | Op_turn_on _ _ _ | Op_turn_off
  | Op_set_brightness _ => true
  | _ => false
  end.

(** The registrations among a sequence of uses, in order. *)
Fixpoint registrations_of (ops : list Op) : list (Transition * Callback) :=
  match ops with
  | [] => []
  | Op_on_button_press cb :: ops' => (Pressed, cb) :: registrations_of ops'
  | Op_on_button_release cb :: ops' => (Released, cb) :: registrations_of ops'
  | _ :: ops' => registrations_of ops'
  end.

Definition is_strip_call (c : Call) : bool :=
  match c with
  | PixelStrip_new _ _ _ _ _ _ _ | PixelStrip_begin _
  | PixelStrip_setPixelColor _ _ _ | PixelStrip_show _
  | PixelStrip_setBrightness _ _ | PixelStrip_cleanup _ => true
  | _ => false
  end.

Definition is_gpio_call (c : Call) : bool :=
  match c with
  | GPIO_setmode _ | GPIO_setup _ _ _ | GPIO_input _
  | GPIO_add_event_detect _ _ _ | GPIO_cleanup => true
  | _ => false
  end.

Definition is_pixel_write (c : Call) : bool :=
  match c with
  | PixelStrip_setPixelColor _ _ _ => true
  | _ => false
  end.

(** The calls a constructed controller may make on its own resources:
    pixel 0, [show] and the brightness of its own strip; reading and
    subscribing its button pin (both edges, 200 ms); [GPIO.cleanup]; and
    listener invocations. *)
Definition own_call (sw : ChromatekSwitch) (c : Call) : bool :=
  match c with
  | PixelStrip_setPixelColor s n _ => Nat.eqb s (strip sw) && (n =? 0)
  | PixelStrip_show s => Nat.eqb s (strip sw)
  | PixelStrip_setBrightness s _ => Nat.eqb s (strip sw)
  | GPIO_input pin => pin =? BUTTON_PIN
  | GPIO_add_event_detect pin BOTH bouncetime =>
      (pin =? BUTTON_PIN) && (bouncetime =? 200)
  | GPIO_cleanup => true
  | Invoke _ => true
  | _ => false
  end.

(** Number of changes along a sequence of states that starts from [last]. *)
Fixpoint changes (last : bool) (states : list bool) : nat :=
  match states with
  | [] => O
  | s :: rest =>
      if Bool.eqb s last then changes last rest else S (changes s rest)
  end.

Section Callers.

Variable Exn : Type.

Notation "x <- m ;; k" := (bind m (fun x => k))
  (at level 100, m at next level, right associativity).
Notation "m ;; k" := (bind m (fun _ => k))
  (at level 100, right associativity).

Definition do_op (o : Op) : M Exn ChromatekSwitch unit :=
  match o with
  | Op_set_color red green blue => set_color red green blue
  | Op_turn_on red green blue => turn_on red green blue
  | Op_turn_off => turn_off
  | Op_set_brightness brightness => set_brightness brightness
  | Op_get_button_state => _ <- get_button_state ;; ret tt
  | Op_on_button_press callback => on_button_press callback
  | Op_on_button_release callback => on_button_release callback
  | Op_button_event channel => _button_event_handler channel
  | Op_cleanup => cleanup
  end.

(** A sequence of uses in which an exception of one use does not keep the
    following ones from happening (the caller handles it, or the use came
    from another thread of control). *)
Definition session (ops : list Op) : M Exn ChromatekSwitch unit :=
  for_each ops (fun o => _ <- try_ (do_op o) ;; ret tt).

(** [with ChromatekSwitch(brightness) as switch: body]
    (chromatek_test.py:15, 32, 58, 82, 123, 154). *)
Definition scoped {A} (brightness : Z)
  (body : M Exn ChromatekSwitch (Completion A)) : Prog Exn (Exn + Completion A) :=
  pbind (__init__ brightness tt) (fun constructed =>
    match snd constructed with
    | inl e => Ret (inl e)
    | inr switch => pbind (with_statement body switch) (fun r => Ret (snd r))
    end).

(** chromatek_test.py:89-99, one turn of the polling loop; [last_state] is
    the local variable, the value returned is its new content. *)
Definition poll_step (last_state : bool) : M Exn ChromatekSwitch bool :=
  current_state <- get_button_state ;;
  if negb (Bool.eqb current_state last_state) then
    (if current_state then set_color 0 255 0 else set_color 255 255 0) ;;
    ret current_state
  else ret last_state.

(** chromatek_test.py:88-101; the clock lets the loop make [n] turns. *)
Fixpoint poll_loop (n : nat) (last_state : bool) : M Exn ChromatekSwitch bool :=
  match n with
  | O => ret last_state
  | S n' => last_state' <- poll_step last_state ;; poll_loop n' last_state'
  end.

(** A method of the controller called from code that also holds other
    state. *)
Definition on_switch {S A} (m : M Exn ChromatekSwitch A)
  : M Exn (S * ChromatekSwitch) A :=
  fun s => pbind (m (snd s)) (fun r => Ret ((fst s, fst r), snd r)).

(** chromatek_test.py:143-152, the press listener of the toggle example;
    the cell [led_state] is the first component of the state. *)
Definition toggle_led : M Exn (bool * ChromatekSwitch) unit :=
  modify (fun s : bool * ChromatekSwitch => (negb (fst s), snd s)) ;;
  led_state <- gets (fun s : bool * ChromatekSwitch => fst s) ;;
  if led_state then on_switch (S := bool) (set_color 0 255 255)
  else on_switch (S := bool) turn_off.

(** [n] presses of the toggle example, one after the other. *)
Fixpoint toggles (n : nat) : M Exn (bool * ChromatekSwitch) unit :=
  match n with
  | O => ret tt
  | S n' => toggle_led ;; toggles n'
  end.

End Callers.

Arguments do_op {Exn} o.
Arguments session {Exn} ops.
Arguments scoped {Exn A} brightness body.
Arguments poll_step {Exn} last_state.
Arguments poll_loop {Exn} n last_state.
Arguments on_switch {Exn S A} m.
Arguments toggle_led {Exn}.
Arguments toggles {Exn} n.

(** The platform after the listeners [cbs] were invoked in order, when
    each of them returned. *)
Fixpoint listeners_return {Exn W} (h : Handler Exn W) (cbs : list Callback)
  (w : W) : option W :=
  match cbs with
  | [] => Some w
  | cb :: rest =>
      match snd (h (Invoke cb) w) with
      | inl _ => None
      | inr _ => listeners_return h rest (fst (h (Invoke cb) w))
      end
  end.

(** The calls of [n] toggles that all return, starting from [led_state]. *)
Fixpoint toggle_calls (sw : ChromatekSwitch) (led_state : bool) (n : nat)
  : list Call :=
  match n with
  | O => []
  | S n' =>
      (if negb led_state then led_write sw 0 255 255 else led_write sw 0 0 0)
        :: led_show sw :: toggle_calls sw (negb led_state) n'
  end.

(** The polling loop on the bench: before each turn the button line takes
    the next level. *)
Fixpoint poll_levels (levels : list Z) (last_state : bool)
  (sw : ChromatekSwitch) (w : World) : list Call * World * bool :=
  match levels with
  | [] => ([], w, last_state)
  | level :: rest =>
      let r := run platform (poll_step last_state sw) (set_button_line level w) in
      match result r with
      | inr last_state' =>
          let r' := poll_levels rest last_state' sw (world r) in
          (calls r ++ fst (fst r'), snd (fst r'), snd r')
      | inl _ => (calls r, world r, last_state)
      end
  end.

(** A bench on which the controller [sw] can work: the button line is
    configured, the strip of [sw] is live and no call is refused. *)
Definition bench_ready (sw : ChromatekSwitch) (w : World) : Prop :=
  membZ BUTTON_PIN (gpio_channels w) = true
  /\ (forall c, faults w c = false)
  /\ exists st, nth_error (strips w) (strip sw) = Some st /\ strip_live st = true.

(** The same world with other calls refused. *)
Definition with_faults (f : Call -> bool) (w : World) : World :=
  mkWorld (strips w) (gpio_mode w) (gpio_channels w) (gpio_events w)
          (button_line w) f.

Definition second_raises (c : Call) : bool :=
  match c with
  | Invoke cb => String.eqb cb "second"
  | _ => false
  end.

Definition show_refused (c : Call) : bool :=
  match c with
  | PixelStrip_show _ => true
  | _ => false
  end.

(** * Properties *)

Section Facts.

Variable Exn : Type.
Variable W : Type.
Variable h : Handler Exn W.

Lemma run_pbind {A B} (p : Prog Exn A) (f : A -> Prog Exn B) (w : W) :
  run h (pbind p f) w =
  (calls (run h p w) ++ calls (run h (f (snd (run h p w))) (world (run h p w))),
   world (run h (f (snd (run h p w))) (world (run h p w))),
   snd (run h (f (snd (run h p w))) (world (run h p w)))).
Proof.
  revert w. induction p as [a | c k IH]; intro w.
  - cbn. unfold calls, world.
    destruct (run h (f a) w) as [[l w'] b]. reflexivity.
  - cbn [pbind run]. rewrite IH. unfold calls, world. cbn. reflexivity.
Qed.

(** Sequencing: the second method runs on what the first left, unless the
    first raised. *)
Lemma run_bind {S A B} (m : M Exn S A) (f : A -> M Exn S B) (s : S) (w : W) :
  run h (bind m f s) w =
  match result (run h (m s) w) with
  | inl e => (calls (run h (m s) w), world (run h (m s) w),
              (self_after (run h (m s) w), inl e))
  | inr a =>
      (calls (run h (m s) w)
         ++ calls (run h (f a (self_after (run h (m s) w))) (world (run h (m s) w))),
       world (run h (f a (self_after (run h (m s) w))) (world (run h (m s) w))),
       snd (run h (f a (self_after (run h (m s) w))) (world (run h (m s) w))))
  end.
Proof.
  unfold bind. rewrite run_pbind. unfold result, self_after, calls, world.
  destruct (run h (m s) w) as [[l w'] [s' [e | a]]]; cbn.
  - rewrite app_nil_r. reflexivity.
  - reflexivity.
Qed.

Lemma run_call {S} (c : Call) (s : S) (w : W) :
  run h (call c s) w = ([c], fst (h c w), (s, snd (h c w))).
Proof. reflexivity. Qed.

(** ** Polling the button *)

Lemma run_get_button_state :
  forall (w w' : W) (sw : ChromatekSwitch) (level : Z),
    h (GPIO_input BUTTON_PIN) w = (w', inr level) ->
    run h (get_button_state sw) w
    = ([GPIO_input BUTTON_PIN], w', (sw, inr (level =? GPIO_LOW))).
Proof.
  intros w w' sw level Hin.
  unfold get_button_state. rewrite run_bind, run_call.
  unfold result, self_after, world, calls. rewrite Hin. reflexivity.
Qed.

(** C9: [get_button_state] reads the line once and answers True exactly when
    the raw level is LOW; the answer is the same for every controller state
    (listeners registered or not, subscription active or not), and the
    controller is left as it was. *)
Theorem get_button_state_active_low :
  forall (w w' : W) (sw : ChromatekSwitch) (level : Z),
    h (GPIO_input BUTTON_PIN) w = (w', inr level) ->
    run h (get_button_state sw) w
      = ([GPIO_input BUTTON_PIN], w', (sw, inr (level =? GPIO_LOW)))
    /\ ((level =? GPIO_LOW) = true <-> level = GPIO_LOW)
    /\ (forall sw2 : ChromatekSwitch,
          result (run h (get_button_state sw2) w)
          = result (run h (get_button_state sw) w)).
Proof.
  intros w w' sw level Hin.
  split; [exact (run_get_button_state w w' sw level Hin) | split].
  - apply Z.eqb_eq.
  - intro sw2.
    now rewrite (run_get_button_state w w' sw2 level Hin),
                (run_get_button_state w w' sw level Hin).
Qed.

(** When the read raises, the exception reaches the caller. *)
Lemma get_button_state_raises :
  forall (w w' : W) (sw : ChromatekSwitch) (e : Exn),
    h (GPIO_input BUTTON_PIN) w = (w', inl e) ->
    run h (get_button_state sw) w = ([GPIO_input BUTTON_PIN], w', (sw, inl e)).
Proof.
  intros w w' sw e Hin.
  unfold get_button_state. rewrite run_bind, run_call.
  unfold result, self_after, world, calls. rewrite Hin. reflexivity.
Qed.

(** ** Dispatch *)

Lemma invocations_map_Invoke (l : list Callback) :
  invocations (map Invoke l) = l.
Proof. induction l as [| cb l IH]; cbn; [reflexivity | now rewrite IH]. Qed.

Lemma invocations_app (l1 l2 : list Call) :
  invocations (l1 ++ l2) = invocations l1 ++ invocations l2.
Proof.
  induction l1 as [| c l1 IH]; cbn; [reflexivity |].
  destruct c; cbn; rewrite IH; reflexivity.
Qed.

Lemma sampling_map_Invoke (l : list Callback) :
  filter is_sampling (map Invoke l) = [].
Proof. induction l as [| cb l IH]; cbn; [reflexivity | exact IH]. Qed.

(** The loop over a listener collection: it invokes the listeners from the
    front, in order, and stops at the first one that raises. *)
Lemma run_invoke_loop (cbs : list Callback) (sw : ChromatekSwitch) (w : W) :
  exists done rest,
    cbs = done ++ rest
    /\ calls (run h (for_each cbs (fun cb => call (Invoke cb)) sw) w)
       = map Invoke done
    /\ self_after (run h (for_each cbs (fun cb => call (Invoke cb)) sw) w) = sw
    /\ (result (run h (for_each cbs (fun cb => call (Invoke cb)) sw) w) = inr tt
        -> rest = []).
Proof.
  revert w. induction cbs as [| cb cbs IH]; intro w.
  - exists [], []. cbn. repeat split; reflexivity.
  - cbn [for_each]. rewrite run_bind, (run_call (Invoke cb)).
    cbn [snd fst result self_after world calls].
    destruct (h (Invoke cb) w) as [w1 [e | []]]; cbn [snd fst].
    + exists [cb], cbs. cbn. repeat split. discriminate.
    + destruct (IH w1) as (done & rest & Hsplit & Hcalls & Hself & Hall).
      exists (cb :: done), rest. unfold calls, self_after, result in *.
      cbn [fst snd]. repeat split.
      * cbn. now rewrite Hsplit.
      * cbn. now rewrite Hcalls.
      * exact Hself.
      * exact Hall.
Qed.

(** When no listener raises, the whole collection is invoked. *)
Lemma run_invoke_loop_returning (cbs : list Callback) (sw : ChromatekSwitch) (w : W) :
  (forall cb w0, snd (h (Invoke cb) w0) = inr tt) ->
  calls (run h (for_each cbs (fun cb => call (Invoke cb)) sw) w) = map Invoke cbs
  /\ self_after (run h (for_each cbs (fun cb => call (Invoke cb)) sw) w) = sw
  /\ result (run h (for_each cbs (fun cb => call (Invoke cb)) sw) w) = inr tt.
Proof.
  intro Hret. revert w. induction cbs as [| cb cbs IH]; intro w.
  - cbn. repeat split; reflexivity.
  - cbn [for_each]. rewrite run_bind, (run_call (Invoke cb)).
    cbn [snd fst result self_after world calls].
    rewrite Hret. destruct (IH (fst (h (Invoke cb) w))) as (Hc & Hs & Hr).
    unfold calls, self_after, result in *. cbn [fst snd app].
    repeat split; [rewrite Hc; reflexivity | exact Hs | exact Hr].
Qed.

(** The handler is the read followed by the loop over the collection the
    level selects. *)
Lemma run_button_event_handler :
  forall (w w' : W) (sw : ChromatekSwitch) (channel level : Z),
    h (GPIO_input BUTTON_PIN) w = (w', inr level) ->
    run h (_button_event_handler channel sw) w
    = (GPIO_input BUTTON_PIN ::
         calls (run h (for_each (listeners (transition_of_level level) sw)
                                (fun cb => call (Invoke cb)) sw) w'),
       world (run h (for_each (listeners (transition_of_level level) sw)
                              (fun cb => call (Invoke cb)) sw) w'),
       snd (run h (for_each (listeners (transition_of_level level) sw)
                            (fun cb => call (Invoke cb)) sw) w')).
Proof.
  intros w w' sw channel level Hin.
  pose proof (run_get_button_state w w' sw level Hin) as Hget.
  unfold _button_event_handler. rewrite run_bind, Hget.
  unfold result, self_after, world, calls, transition_of_level.
  cbn [fst snd]. destruct (level =? GPIO_LOW); cbn [listeners];
    rewrite run_bind; cbn; reflexivity.
Qed.

(** C10: a delivered notification makes the handler read the line exactly
    once and then invoke listeners of one collection only, the press
    listeners when the level read is LOW and the release listeners otherwise:
    the calls are the read followed by invocations of the chosen collection
    from its front (all of it when the handler returns), the controller is
    unchanged, and the channel argument plays no part. *)
Theorem handler_dispatches_by_level_read :
  forall (w w' : W) (sw : ChromatekSwitch) (channel level : Z),
    h (GPIO_input BUTTON_PIN) w = (w', inr level) ->
    (exists done rest,
        listeners (transition_of_level level) sw = done ++ rest
        /\ calls (run h (_button_event_handler channel sw) w)
           = GPIO_input BUTTON_PIN :: map Invoke done
        /\ (result (run h (_button_event_handler channel sw) w) = inr tt
            -> rest = []))
    /\ List.length (filter is_sampling
                      (calls (run h (_button_event_handler channel sw) w))) = 1%nat
    /\ self_after (run h (_button_event_handler channel sw) w) = sw
    /\ (forall channel' : Z,
          run h (_button_event_handler channel' sw) w
          = run h (_button_event_handler channel sw) w).
Proof.
  intros w w' sw channel level Hin.
  assert (Hchannel : forall channel' : Z,
             run h (_button_event_handler channel' sw) w
             = run h (_button_event_handler channel sw) w) by reflexivity.
  pose proof (run_button_event_handler w w' sw channel level Hin) as Hrun.
  destruct (run_invoke_loop (listeners (transition_of_level level) sw) sw w')
    as (done & rest & Hsplit & Hcalls & Hself & Hall).
  split; [| split; [| split]]; [| | | exact Hchannel];
    rewrite Hrun; unfold calls, self_after, result in *; cbn [fst snd].
  - exists done, rest. repeat split; [exact Hsplit | now rewrite Hcalls | exact Hall].
  - rewrite Hcalls. cbn. now rewrite sampling_map_Invoke.
  - exact Hself.
Qed.

(** ** Registration *)

Lemma run_setup_button_events (sw : ChromatekSwitch) (w : W) :
  run h (_setup_button_events sw) w =
  if _button_event_added sw then ([], w, (sw, inr tt))
  else match snd (h subscription w) with
       | inl e => ([subscription], fst (h subscription w), (sw, inl e))
       | inr _ => ([subscription], fst (h subscription w), (subscribed sw, inr tt))
       end.
Proof.
  unfold _setup_button_events. rewrite run_bind. cbn [gets run result snd fst].
  destruct (_button_event_added sw); cbn [negb].
  - reflexivity.
  - rewrite run_bind, (run_call subscription).
    cbn [result snd fst calls world self_after].
    destruct (snd (h subscription w)) as [e | []]; reflexivity.
Qed.

Lemma run_register (r : Transition * Callback) (sw : ChromatekSwitch) (w : W) :
  run h (register r sw) w =
  if _button_event_added sw then ([], w, (append_listener r sw, inr tt))
  else match snd (h subscription w) with
       | inl e =>
           ([subscription], fst (h subscription w), (append_listener r sw, inl e))
       | inr _ =>
           ([subscription], fst (h subscription w),
            (subscribed (append_listener r sw), inr tt))
       end.
Proof.
  destruct r as [[|] cb]; unfold register, append_listener; cbn [fst snd];
    [unfold on_button_press | unfold on_button_release];
    rewrite run_bind; cbn [modify run result snd fst calls world self_after app];
    rewrite run_setup_button_events; cbn [_button_event_added];
    destruct (_button_event_added sw); try reflexivity;
    destruct (snd (h subscription w)) as [e | []]; reflexivity.
Qed.

Lemma listeners_append_listener (k : Transition) (r : Transition * Callback)
      (sw : ChromatekSwitch) :
  listeners k (append_listener r sw) = listeners k sw ++ registered k [r].
Proof.
  destruct r as [[|] cb], k; cbn; now rewrite ?app_nil_r.
Qed.

Lemma registered_cons (k : Transition) (r : Transition * Callback)
      (rs : list (Transition * Callback)) :
  registered k (r :: rs) = registered k [r] ++ registered k rs.
Proof.
  unfold registered. cbn [filter].
  destruct r as [[|] cb], k; cbn; reflexivity.
Qed.

(** Once the subscription is active, registrations only append. *)
Lemma run_register_all_subscribed (rs : list (Transition * Callback))
      (sw : ChromatekSwitch) (w : W) :
  _button_event_added sw = true ->
  run h (register_all rs sw) w = ([], w, (append_all rs sw, inr tt)).
Proof.
  revert sw. induction rs as [| r rs IH]; intros sw Hflag.
  - reflexivity.
  - unfold register_all. cbn [for_each]. rewrite run_bind, run_register, Hflag.
    cbn [result snd fst calls world self_after app].
    fold (@register_all Exn rs). rewrite IH.
    + reflexivity.
    + destruct r as [[|] cb]; exact Hflag.
Qed.

(** A registration keeps its listener whether or not the subscription
    request succeeded. *)
Lemma listeners_after_register (k : Transition) (r : Transition * Callback)
      (sw : ChromatekSwitch) (w : W) :
  listeners k (self_after (run h (register r sw) w))
  = listeners k sw ++ registered k [r].
Proof.
  rewrite run_register.
  destruct (_button_event_added sw);
    [| destruct (snd (h subscription w)) as [e | []]];
    cbn [self_after fst snd]; apply listeners_append_listener.
Qed.

Lemma listeners_after_register_all (k : Transition)
      (rs : list (Transition * Callback)) (sw : ChromatekSwitch) (w : W) :
  result (run h (register_all rs sw) w) = inr tt ->
  listeners k (self_after (run h (register_all rs sw) w))
  = listeners k sw ++ registered k rs.
Proof.
  revert sw w. induction rs as [| r rs IH]; intros sw w.
  - intros _. cbn. now rewrite app_nil_r.
  - unfold register_all. cbn [for_each]. fold (@register_all Exn rs).
    rewrite run_bind.
    destruct (result (run h (register r sw) w)) as [e | []] eqn:Hfirst.
    + cbn. discriminate.
    + unfold result at 1, self_after at 1. cbn [fst snd]. intro Hrest.
      rewrite registered_cons, app_assoc, <- (listeners_after_register k r sw w).
      apply (IH _ _ Hrest).
Qed.

(** C8: on a controller whose subscription is not yet active, any
    non-empty straight-line sequence of registrations, of either kind, makes
    exactly one subscription request; the first registration makes it, and
    once that registration has returned the flag is set and the remaining
    registrations make no call at all. *)
Theorem edge_subscription_activated_once :
  forall (w : W) (sw : ChromatekSwitch) (r : Transition * Callback)
         (rs : list (Transition * Callback)),
    _button_event_added sw = false ->
    calls (run h (register_all (r :: rs) sw) w) = [subscription]
    /\ List.length (filter is_subscription
                      (calls (run h (register_all (r :: rs) sw) w))) = 1%nat
    /\ calls (run h (register r sw) w) = [subscription]
    /\ (result (run h (register r sw) w) = inr tt ->
        _button_event_added (self_after (run h (register r sw) w)) = true
        /\ calls (run h (register_all rs (self_after (run h (register r sw) w)))
                     (world (run h (register r sw) w))) = []).
Proof.
  intros w sw r rs Hflag.
  assert (Hall : calls (run h (register_all (r :: rs) sw) w) = [subscription]).
  { unfold register_all. cbn [for_each]. fold (@register_all Exn rs).
    rewrite run_bind, run_register, Hflag.
    destruct (snd (h subscription w)) as [e | []];
      cbn [result snd fst calls world self_after]; [reflexivity |].
    rewrite run_register_all_subscribed by reflexivity. reflexivity. }
  split; [exact Hall | split; [now rewrite Hall | ]].
  rewrite run_register, Hflag.
  destruct (snd (h subscription w)) as [e | []];
    cbn [result snd fst calls world self_after]; split; try reflexivity.
  - discriminate.
  - intros _. split; [reflexivity |].
    rewrite run_register_all_subscribed by reflexivity. reflexivity.
Qed.

(** C7: after registrations that returned, a dispatch that returns has
    invoked exactly the listeners of the dispatched kind, those the
    controller already had followed by the registered ones, one invocation
    per registration and in registration order; a callback registered twice
    therefore appears twice. *)
Theorem listeners_invoked_in_registration_order :
  forall (w0 w1 w2 : W) (sw0 sw1 : ChromatekSwitch)
         (rs : list (Transition * Callback)) (log : list Call)
         (channel level : Z),
    run h (register_all rs sw0) w0 = (log, w1, (sw1, inr tt)) ->
    h (GPIO_input BUTTON_PIN) w1 = (w2, inr level) ->
    result (run h (_button_event_handler channel sw1) w1) = inr tt ->
    calls (run h (_button_event_handler channel sw1) w1)
    = GPIO_input BUTTON_PIN ::
        map Invoke (listeners (transition_of_level level) sw0
                    ++ registered (transition_of_level level) rs)
    /\ invocations (calls (run h (_button_event_handler channel sw1) w1))
       = listeners (transition_of_level level) sw0
         ++ registered (transition_of_level level) rs.
Proof.
  intros w0 w1 w2 sw0 sw1 rs log channel level Hreg Hin.
  assert (Hlist : listeners (transition_of_level level) sw1
                  = listeners (transition_of_level level) sw0
                    ++ registered (transition_of_level level) rs).
  { pose proof (listeners_after_register_all (transition_of_level level) rs sw0 w0)
      as Hl.
    rewrite Hreg in Hl. apply Hl. reflexivity. }
  rewrite (run_button_event_handler w1 w2 sw1 channel level Hin).
  destruct (run_invoke_loop (listeners (transition_of_level level) sw1) sw1 w2)
    as (done & rest & Hsplit & Hcalls & _ & Hall).
  unfold calls, result in *. cbn [fst snd]. intro Hret.
  rewrite (Hall Hret), app_nil_r in Hsplit.
  rewrite Hcalls, <- Hsplit, Hlist. split; [reflexivity |].
  cbn [invocations]. apply invocations_map_Invoke.
Qed.

(** ** The LED methods *)

Lemma run_set_color (red green blue : Z) (sw : ChromatekSwitch) (w : W) :
  run h (set_color red green blue sw) w =
  match snd (h (led_write sw red green blue) w) with
  | inl e =>
      ([led_write sw red green blue],
       fst (h (led_write sw red green blue) w), (sw, inl e))
  | inr _ =>
      ([led_write sw red green blue; led_show sw],
       fst (h (led_show sw) (fst (h (led_write sw red green blue) w))),
       (sw, snd (h (led_show sw) (fst (h (led_write sw red green blue) w)))))
  end.
Proof.
  unfold set_color. rewrite run_bind. cbn [gets run result snd fst].
  rewrite run_bind, (run_call (led_write sw red green blue)).
  cbn [result snd fst calls world self_after app].
  destruct (snd (h (led_write sw red green blue) w)) as [e | []];
    [reflexivity |].
  rewrite (run_call (led_show sw)). reflexivity.
Qed.

Lemma run_set_brightness (brightness : Z) (sw : ChromatekSwitch) (w : W) :
  run h (set_brightness brightness sw) w =
  match snd (h (led_dim sw brightness) w) with
  | inl e =>
      ([led_dim sw brightness], fst (h (led_dim sw brightness) w), (sw, inl e))
  | inr _ =>
      ([led_dim sw brightness; led_show sw],
       fst (h (led_show sw) (fst (h (led_dim sw brightness) w))),
       (sw, snd (h (led_show sw) (fst (h (led_dim sw brightness) w)))))
  end.
Proof.
  unfold set_brightness. rewrite run_bind. cbn [gets run result snd fst].
  rewrite run_bind, (run_call (led_dim sw brightness)).
  cbn [result snd fst calls world self_after app].
  destruct (snd (h (led_dim sw brightness) w)) as [e | []]; [reflexivity |].
  rewrite (run_call (led_show sw)). reflexivity.
Qed.

(** C6, as the code has it: [set_color] and [set_brightness] check no
    range.  For every argument, inside [0,255] or not, the first call they
    make hands the values over unchanged (the color to pixel 0, or the
    brightness); [show] follows unless that call raised; the method ends as
    the last library call ended, with the library's exception when it
    raised, and the controller object is unchanged. *)
Theorem led_setters_forward_unchecked :
  forall (w : W) (sw : ChromatekSwitch) (red green blue brightness : Z),
    run h (set_color red green blue sw) w =
      match snd (h (led_write sw red green blue) w) with
      | inl e =>
          ([led_write sw red green blue],
           fst (h (led_write sw red green blue) w), (sw, inl e))
      | inr _ =>
          ([led_write sw red green blue; led_show sw],
           fst (h (led_show sw) (fst (h (led_write sw red green blue) w))),
           (sw, snd (h (led_show sw) (fst (h (led_write sw red green blue) w)))))
      end
    /\ run h (set_brightness brightness sw) w =
      match snd (h (led_dim sw brightness) w) with
      | inl e =>
          ([led_dim sw brightness], fst (h (led_dim sw brightness) w),
           (sw, inl e))
      | inr _ =>
          ([led_dim sw brightness; led_show sw],
           fst (h (led_show sw) (fst (h (led_dim sw brightness) w))),
           (sw, snd (h (led_show sw) (fst (h (led_dim sw brightness) w)))))
      end.
Proof.
  intros w sw red green blue brightness.
  split; [apply run_set_color | apply run_set_brightness].
Qed.

(** ** Teardown *)

Lemma run_cleanup (sw : ChromatekSwitch) (w : W) :
  run h (cleanup sw) w =
  match snd (h (led_write sw 0 0 0) w) with
  | inl e => ([led_write sw 0 0 0], fst (h (led_write sw 0 0 0) w), (sw, inl e))
  | inr _ =>
      match snd (h (led_show sw) (fst (h (led_write sw 0 0 0) w))) with
      | inl e =>
          ([led_write sw 0 0 0; led_show sw],
           fst (h (led_show sw) (fst (h (led_write sw 0 0 0) w))), (sw, inl e))
      | inr _ =>
          (cleanup_calls sw,
           fst (h GPIO_cleanup
                  (fst (h (led_show sw) (fst (h (led_write sw 0 0 0) w))))),
           (sw, snd (h GPIO_cleanup
                       (fst (h (led_show sw) (fst (h (led_write sw 0 0 0) w)))))))
      end
  end.
Proof.
  unfold cleanup, turn_off. rewrite run_bind, run_set_color.
  destruct (snd (h (led_write sw 0 0 0) w)) as [e | []];
    cbn [result snd fst calls world self_after]; [reflexivity |].
  destruct (snd (h (led_show sw) (fst (h (led_write sw 0 0 0) w)))) as [e | []];
    [reflexivity |].
  rewrite (run_call GPIO_cleanup). reflexivity.
Qed.

Lemma cleanup_keeps_object (sw : ChromatekSwitch) (w : W) :
  self_after (run h (cleanup sw) w) = sw.
Proof.
  rewrite run_cleanup.
  destruct (snd (h (led_write sw 0 0 0) w)) as [e | []]; [reflexivity |].
  destruct (snd (h (led_show sw) (fst (h (led_write sw 0 0 0) w)))) as [e | []];
    reflexivity.
Qed.

Lemma cleanup_returned_calls (sw : ChromatekSwitch) (w : W) :
  result (run h (cleanup sw) w) = inr tt ->
  calls (run h (cleanup sw) w) = cleanup_calls sw.
Proof.
  rewrite run_cleanup.
  destruct (snd (h (led_write sw 0 0 0) w)) as [e | []]; [discriminate |].
  destruct (snd (h (led_show sw) (fst (h (led_write sw 0 0 0) w)))) as [e | []];
    [discriminate | reflexivity].
Qed.

Lemma cleanup_calls_prefix (sw : ChromatekSwitch) (w : W) :
  exists rest, cleanup_calls sw = calls (run h (cleanup sw) w) ++ rest.
Proof.
  rewrite run_cleanup.
  destruct (snd (h (led_write sw 0 0 0) w)) as [e | []];
    [exists [led_show sw; GPIO_cleanup]; reflexivity |].
  destruct (snd (h (led_show sw) (fst (h (led_write sw 0 0 0) w)))) as [e | []];
    [exists [GPIO_cleanup] | exists []]; reflexivity.
Qed.

(** C5, as the code has it: [cleanup] first turns the LED off (pixel 0 set
    to Color(0,0,0), then [show]) and then calls [GPIO.cleanup]: its calls
    are these three, from the front, and all three when it returns.  It
    never releases the pixel strip and records nothing in the object, so a
    second [cleanup] is not refused: two cleanups that return have made the
    three calls twice, the last color written being zero. *)
Theorem cleanup_turns_off_then_releases_gpio_only :
  forall (w : W) (sw : ChromatekSwitch),
    (exists rest, cleanup_calls sw = calls (run h (cleanup sw) w) ++ rest)
    /\ (result (run h (cleanup sw) w) = inr tt ->
        calls (run h (cleanup sw) w) = cleanup_calls sw)
    /\ filter is_strip_release (calls (run h (cleanup sw) w)) = []
    /\ self_after (run h (cleanup sw) w) = sw
    /\ (result (run h (bind cleanup (fun _ => cleanup) sw) w) = inr tt ->
        calls (run h (bind cleanup (fun _ => cleanup) sw) w)
        = cleanup_calls sw ++ cleanup_calls sw).
Proof.
  intros w sw.
  split; [apply cleanup_calls_prefix |].
  split; [apply cleanup_returned_calls |].
  split.
  { destruct (cleanup_calls_prefix sw w) as [rest Hrest].
    assert (Hnone : filter is_strip_release
                      (calls (run h (cleanup sw) w) ++ rest) = [])
      by (rewrite <- Hrest; reflexivity).
    rewrite filter_app in Hnone. now apply app_eq_nil in Hnone. }
  split; [apply cleanup_keeps_object |].
  rewrite run_bind.
  destruct (result (run h (cleanup sw) w)) as [e | []] eqn:Hfirst.
  - unfold result at 1. cbn [fst snd]. discriminate.
  - unfold result at 1, calls at 1. cbn [fst snd]. intro Hsecond.
    rewrite cleanup_keeps_object in *.
    rewrite (cleanup_returned_calls sw w Hfirst).
    now rewrite (cleanup_returned_calls sw _ Hsecond).
Qed.

(** ** Scoped use *)

Lemma run_try {S A} (m : M Exn S A) (s : S) (w : W) :
  run h (try_ m s) w =
  (calls (run h (m s) w), world (run h (m s) w),
   (self_after (run h (m s) w), inr (result (run h (m s) w)))).
Proof.
  unfold try_. rewrite run_pbind. cbn [run calls world fst snd].
  unfold self_after, result. now rewrite app_nil_r.
Qed.

(** C4: a [with] block over the controller runs [cleanup] exactly once on
    every way out of its body.  Whatever the body does (fall through,
    early return, or raise) the block behaves as the body followed by one
    run of [cleanup] on the object and platform the body left; the block
    then ends as the body ended, the body's exception being raised again,
    unless [cleanup] itself raised. *)
Theorem with_statement_cleans_up_once :
  forall (A : Type) (body : M Exn ChromatekSwitch (Completion A))
         (w : W) (sw : ChromatekSwitch),
    run h (with_statement body sw) w =
    (calls (run h (body sw) w)
       ++ calls (run h (cleanup (self_after (run h (body sw) w)))
                     (world (run h (body sw) w))),
     world (run h (cleanup (self_after (run h (body sw) w)))
                (world (run h (body sw) w))),
     (self_after (run h (cleanup (self_after (run h (body sw) w)))
                      (world (run h (body sw) w))),
      match result (run h (cleanup (self_after (run h (body sw) w)))
                        (world (run h (body sw) w))) with
      | inl e => inl e
      | inr _ => result (run h (body sw) w)
      end)).
Proof.
  intros A body w sw.
  unfold with_statement, __enter__. rewrite run_bind.
  cbn [gets run result snd fst calls world self_after app].
  rewrite run_bind, run_try.
  cbn [result snd fst calls world self_after].
  unfold result, self_after, calls, world.
  destruct (run h (body sw) w) as [[lb wb] [sb [e | completion]]];
    cbn [fst snd]; rewrite run_bind; unfold __exit__, result, self_after, calls, world;
    destruct (run h (cleanup sb) wb) as [[lc wc] [sc [e2 | []]]];
    cbn [fst snd run raise ret]; rewrite ?app_nil_r; reflexivity.
Qed.

(** ** After teardown *)

(** C2, as the code has it: [cleanup] leaves no mark in the object, and no
    method looks for one.  After a [cleanup] that returned, [set_color] and
    [set_brightness] still hand their arguments to the strip and return when
    the strip calls return; [get_button_state] answers from whatever
    [GPIO.input] gives; and on a controller whose subscription had been
    activated a registration appends its listener and returns without any
    library call.  An operation fails only with an exception raised by the
    library call it makes. *)
Theorem operations_after_cleanup_not_refused :
  forall (w w1 : W) (sw sw1 : ChromatekSwitch) (log : list Call),
    run h (cleanup sw) w = (log, w1, (sw1, inr tt)) ->
    sw1 = sw
    /\ (forall (red green blue : Z) (w2 w3 : W),
          h (led_write sw1 red green blue) w1 = (w2, inr tt) ->
          h (led_show sw1) w2 = (w3, inr tt) ->
          run h (set_color red green blue sw1) w1
          = ([led_write sw1 red green blue; led_show sw1], w3, (sw1, inr tt)))
    /\ (forall (brightness : Z) (w2 w3 : W),
          h (led_dim sw1 brightness) w1 = (w2, inr tt) ->
          h (led_show sw1) w2 = (w3, inr tt) ->
          run h (set_brightness brightness sw1) w1
          = ([led_dim sw1 brightness; led_show sw1], w3, (sw1, inr tt)))
    /\ (forall (level : Z) (w2 : W),
          h (GPIO_input BUTTON_PIN) w1 = (w2, inr level) ->
          run h (get_button_state sw1) w1
          = ([GPIO_input BUTTON_PIN], w2, (sw1, inr (level =? GPIO_LOW))))
    /\ (forall r : Transition * Callback,
          _button_event_added sw = true ->
          run h (register r sw1) w1 = ([], w1, (append_listener r sw1, inr tt))).
Proof.
  intros w w1 sw sw1 log Hclean.
  assert (Hsame : sw1 = sw).
  { pose proof (cleanup_keeps_object sw w) as Hk. now rewrite Hclean in Hk. }
  split; [exact Hsame |]. split; [| split; [| split]].
  - intros red green blue w2 w3 Hwrite Hshow.
    rewrite run_set_color, Hwrite. cbn [fst snd]. now rewrite Hshow.
  - intros brightness w2 w3 Hdim Hshow.
    rewrite run_set_brightness, Hdim. cbn [fst snd]. now rewrite Hshow.
  - intros level w2 Hin.
    apply (run_get_button_state w1 w2 sw1 level Hin).
  - intros r Hflag. rewrite run_register, Hsame, Hflag. reflexivity.
Qed.

(** ** Construction *)

Lemma run_init (brightness : Z) (w : W) :
  run h (__init__ brightness tt) w =
  match snd (h (strip_new brightness) w) with
  | inl e => ([strip_new brightness], fst (h (strip_new brightness) w), (tt, inl e))
  | inr s =>
    match snd (h (PixelStrip_begin s) (fst (h (strip_new brightness) w))) with
    | inl e =>
        ([strip_new brightness; PixelStrip_begin s],
         fst (h (PixelStrip_begin s) (fst (h (strip_new brightness) w))),
         (tt, inl e))
    | inr _ =>
      match snd (h (GPIO_setmode BCM)
                   (fst (h (PixelStrip_begin s)
                           (fst (h (strip_new brightness) w))))) with
      | inl e =>
          ([strip_new brightness; PixelStrip_begin s; GPIO_setmode BCM],
           fst (h (GPIO_setmode BCM)
                  (fst (h (PixelStrip_begin s)
                          (fst (h (strip_new brightness) w))))),
           (tt, inl e))
      | inr _ =>
          (construction_calls brightness s,
           fst (h button_setup
                  (fst (h (GPIO_setmode BCM)
                          (fst (h (PixelStrip_begin s)
                                  (fst (h (strip_new brightness) w))))))),
           (tt,
            match snd (h button_setup
                         (fst (h (GPIO_setmode BCM)
                                 (fst (h (PixelStrip_begin s)
                                         (fst (h (strip_new brightness) w)))))))
            with
            | inl e => inl e
            | inr _ => inr (mkSwitch brightness s [] [] false)
            end))
      end
    end
  end.
Proof.
  unfold __init__. fold (strip_new brightness). fold button_setup.
  rewrite run_bind, (run_call (strip_new brightness)).
  cbn [result snd fst calls world self_after].
  destruct (snd (h (strip_new brightness) w)) as [e | s]; [reflexivity |].
  rewrite run_bind, (run_call (PixelStrip_begin s)).
  cbn [result snd fst calls world self_after].
  destruct (snd (h (PixelStrip_begin s) _)) as [e | []]; [reflexivity |].
  rewrite run_bind, (run_call (GPIO_setmode BCM)).
  cbn [result snd fst calls world self_after].
  destruct (snd (h (GPIO_setmode BCM) _)) as [e | []]; [reflexivity |].
  rewrite run_bind, (run_call button_setup).
  cbn [result snd fst calls world self_after].
  destruct (snd (h button_setup _)) as [e | []]; reflexivity.
Qed.

(** C3, as the code has it: construction is all or nothing for the
    caller, but it gives nothing back.  No call it makes releases a
    resource; it returns a controller only after all four library calls
    returned; when the strip is begun and [GPIO.setup] then raises, the
    constructor ends at that call with that exception, the platform being
    as the failing call left it; and when [begin] raises the GPIO library is
    never reached. *)
Theorem construction_fails_whole_without_release :
  forall (w : W) (brightness : Z),
    filter is_release (calls (run h (__init__ brightness tt) w)) = []
    /\ (forall sw : ChromatekSwitch,
          result (run h (__init__ brightness tt) w) = inr sw ->
          exists s : StripHandle,
            calls (run h (__init__ brightness tt) w) = construction_calls brightness s
            /\ sw = mkSwitch brightness s [] [] false)
    /\ (forall (s : StripHandle) (w1 w2 w3 w4 : W) (e : Exn),
          h (strip_new brightness) w = (w1, inr s) ->
          h (PixelStrip_begin s) w1 = (w2, inr tt) ->
          h (GPIO_setmode BCM) w2 = (w3, inr tt) ->
          h button_setup w3 = (w4, inl e) ->
          run h (__init__ brightness tt) w
          = (construction_calls brightness s, w4, (tt, inl e)))
    /\ (forall (s : StripHandle) (w1 w2 : W) (e : Exn),
          h (strip_new brightness) w = (w1, inr s) ->
          h (PixelStrip_begin s) w1 = (w2, inl e) ->
          run h (__init__ brightness tt) w
          = ([strip_new brightness; PixelStrip_begin s], w2, (tt, inl e))).
Proof.
  intros w brightness. split; [| split; [| split]].
  - rewrite run_init.
    destruct (snd (h (strip_new brightness) w)) as [e | s]; [reflexivity |].
    destruct (snd (h (PixelStrip_begin s) _)) as [e | []]; [reflexivity |].
    destruct (snd (h (GPIO_setmode BCM) _)) as [e | []]; reflexivity.
  - intro sw. rewrite run_init.
    destruct (snd (h (strip_new brightness) w)) as [e | s]; [discriminate |].
    destruct (snd (h (PixelStrip_begin s) _)) as [e | []]; [discriminate |].
    destruct (snd (h (GPIO_setmode BCM) _)) as [e | []]; [discriminate |].
    unfold result, calls. cbn [fst snd].
    destruct (snd (h button_setup _)) as [e | []]; [discriminate |].
    intro Hsw. exists s. split; [reflexivity | congruence].
  - intros s w1 w2 w3 w4 e Hnew Hbegin Hmode Hsetup.
    rewrite run_init, Hnew. cbn [fst snd]. rewrite Hbegin. cbn [fst snd].
    rewrite Hmode. cbn [fst snd]. rewrite Hsetup. reflexivity.
  - intros s w1 w2 e Hnew Hbegin.
    rewrite run_init, Hnew. cbn [fst snd]. rewrite Hbegin. reflexivity.
Qed.

(** ** Error and edge behaviour of registration and dispatch *)

(** X1: a registration appends its listener before it subscribes.  When
    the subscription request raises, the exception reaches the caller, the
    listener is nevertheless retained (in the collection of its kind only)
    and the flag stays False, so that the next registration requests the
    subscription again. *)
Theorem registration_survives_failed_subscription :
  forall (w w' : W) (sw : ChromatekSwitch) (r : Transition * Callback) (e : Exn),
    _button_event_added sw = false ->
    h subscription w = (w', inl e) ->
    run h (register r sw) w = ([subscription], w', (append_listener r sw, inl e))
    /\ _button_event_added (append_listener r sw) = false
    /\ (forall k : Transition,
          listeners k (append_listener r sw) = listeners k sw ++ registered k [r])
    /\ (forall (r2 : Transition * Callback) (w2 : W),
          calls (run h (register r2 (append_listener r sw)) w2) = [subscription]).
Proof.
  intros w w' sw r e Hflag Hsub.
  assert (Hflag' : _button_event_added (append_listener r sw) = false)
    by (destruct r as [[|] cb]; exact Hflag).
  split; [| split; [exact Hflag' | split]].
  - rewrite run_register, Hflag, Hsub. reflexivity.
  - intro k. apply listeners_append_listener.
  - intros r2 w2. rewrite run_register, Hflag'.
    destruct (snd (h subscription w2)) as [e2 | []]; reflexivity.
Qed.

Lemma run_invoke_loop_all_return (cbs : list Callback) (sw : ChromatekSwitch)
      (w w' : W) :
  listeners_return h cbs w = Some w' ->
  run h (for_each cbs (fun cb => call (Invoke cb)) sw) w
  = (map Invoke cbs, w', (sw, inr tt)).
Proof.
  revert w. induction cbs as [| cb cbs IH]; intros w Hall.
  - cbn in Hall. injection Hall as <-. reflexivity.
  - cbn [listeners_return] in Hall.
    cbn [for_each]. rewrite run_bind, (run_call (Invoke cb)).
    cbn [snd fst result self_after world calls].
    destruct (snd (h (Invoke cb) w)) as [e | []]; [discriminate |].
    rewrite (IH _ Hall). reflexivity.
Qed.

Lemma run_invoke_loop_raising (before after : list Callback) (cb : Callback)
      (sw : ChromatekSwitch) (w w1 w2 : W) (e : Exn) :
  listeners_return h before w = Some w1 ->
  h (Invoke cb) w1 = (w2, inl e) ->
  run h (for_each (before ++ cb :: after) (fun c => call (Invoke c)) sw) w
  = (map Invoke (before ++ [cb]), w2, (sw, inl e)).
Proof.
  revert w. induction before as [| b before IH]; intros w Hall Hraise.
  - cbn in Hall. injection Hall as <-.
    cbn [app for_each]. rewrite run_bind, (run_call (Invoke cb)), Hraise.
    reflexivity.
  - cbn [listeners_return] in Hall.
    cbn [app for_each]. rewrite run_bind, (run_call (Invoke b)).
    cbn [snd fst result self_after world calls].
    destruct (snd (h (Invoke b) w)) as [e0 | []]; [discriminate |].
    rewrite (IH _ Hall Hraise). reflexivity.
Qed.

(** X2: the dispatch loop has no exception handling.  When the listeners
    in front of a listener return and that listener raises, the handler
    ends with its exception right there: the listeners behind it in the
    collection are not invoked. *)
Theorem dispatch_stops_at_raising_listener :
  forall (w w1 w2 w3 : W) (sw : ChromatekSwitch) (channel level : Z)
         (before after : list Callback) (cb : Callback) (e : Exn),
    h (GPIO_input BUTTON_PIN) w = (w1, inr level) ->
    listeners (transition_of_level level) sw = before ++ cb :: after ->
    listeners_return h before w1 = Some w2 ->
    h (Invoke cb) w2 = (w3, inl e) ->
    run h (_button_event_handler channel sw) w
    = (GPIO_input BUTTON_PIN :: map Invoke (before ++ [cb]), w3, (sw, inl e)).
Proof.
  intros w w1 w2 w3 sw channel level before after cb e Hin Hsplit Hall Hraise.
  rewrite (run_button_event_handler w w1 sw channel level Hin), Hsplit.
  rewrite (run_invoke_loop_raising before after cb sw w1 w2 w3 e Hall Hraise).
  reflexivity.
Qed.

Lemma run_button_event_handler_unreadable :
  forall (w w' : W) (sw : ChromatekSwitch) (channel : Z) (e : Exn),
    h (GPIO_input BUTTON_PIN) w = (w', inl e) ->
    run h (_button_event_handler channel sw) w
    = ([GPIO_input BUTTON_PIN], w', (sw, inl e)).
Proof.
  intros w w' sw channel e Hin.
  unfold _button_event_handler.
  rewrite run_bind, (get_button_state_raises w w' sw e Hin). reflexivity.
Qed.

(** X3: when reading the line raises (as [GPIO.input] does on a channel
    that is not set up), a notification invokes no listener at all and the
    handler ends with that exception. *)
Theorem unreadable_line_invokes_nothing :
  forall (w w' : W) (sw : ChromatekSwitch) (channel : Z) (e : Exn),
    h (GPIO_input BUTTON_PIN) w = (w', inl e) ->
    run h (_button_event_handler channel sw) w
      = ([GPIO_input BUTTON_PIN], w', (sw, inl e))
    /\ invocations (calls (run h (_button_event_handler channel sw) w)) = [].
Proof.
  intros w w' sw channel e Hin.
  rewrite (run_button_event_handler_unreadable w w' sw channel e Hin).
  split; reflexivity.
Qed.

(** X4: a notification only reaches listeners of the kind its level
    selects: every listener it invokes is in that collection, and when the
    collection is empty the handler does nothing but read the line. *)
Theorem only_selected_listeners_invoked :
  forall (w w' : W) (sw : ChromatekSwitch) (channel level : Z),
    h (GPIO_input BUTTON_PIN) w = (w', inr level) ->
    (forall cb : Callback,
        In cb (invocations (calls (run h (_button_event_handler channel sw) w))) ->
        In cb (listeners (transition_of_level level) sw))
    /\ (listeners (transition_of_level level) sw = [] ->
        run h (_button_event_handler channel sw) w
        = ([GPIO_input BUTTON_PIN], w', (sw, inr tt))).
Proof.
  intros w w' sw channel level Hin.
  rewrite (run_button_event_handler w w' sw channel level Hin).
  split.
  - destruct (run_invoke_loop (listeners (transition_of_level level) sw) sw w')
      as (done & rest & Hsplit & Hcalls & _ & _).
    intros cb. unfold calls in *. cbn [fst snd invocations].
    rewrite Hcalls, invocations_map_Invoke, Hsplit. intro Hin_done.
    apply in_or_app. now left.
  - intro Hempty. rewrite Hempty. reflexivity.
Qed.

(** X5: [cleanup] has no exception handling either.  When turning the LED
    off raises, [GPIO.cleanup] is not called: [cleanup] ends with that
    exception having made the calls of [turn_off] only, none of which
    releases anything. *)
Theorem cleanup_skips_gpio_when_led_fails :
  forall (w : W) (sw : ChromatekSwitch) (e : Exn),
    result (run h (turn_off sw) w) = inl e ->
    result (run h (cleanup sw) w) = inl e
    /\ calls (run h (cleanup sw) w) = calls (run h (turn_off sw) w)
    /\ world (run h (cleanup sw) w) = world (run h (turn_off sw) w)
    /\ filter is_release (calls (run h (cleanup sw) w)) = [].
Proof.
  intros w sw e Hoff.
  assert (Hrun : run h (cleanup sw) w
                 = (calls (run h (turn_off sw) w), world (run h (turn_off sw) w),
                    (self_after (run h (turn_off sw) w), inl e))).
  { unfold cleanup. rewrite run_bind, Hoff. reflexivity. }
  rewrite Hrun. unfold result, calls, world. cbn [fst snd].
  repeat split.
  unfold turn_off. rewrite run_set_color.
  destruct (snd (h (led_write sw 0 0 0) w)) as [e1 | []]; reflexivity.
Qed.

(** ** Scoped construction *)

Lemma run_with_statement {A : Type} (body : M Exn ChromatekSwitch (Completion A))
      (w : W) (sw : ChromatekSwitch) :
  run h (with_statement body sw) w =
  (calls (run h (body sw) w)
     ++ calls (run h (cleanup (self_after (run h (body sw) w)))
                   (world (run h (body sw) w))),
   world (run h (cleanup (self_after (run h (body sw) w)))
              (world (run h (body sw) w))),
   (self_after (run h (cleanup (self_after (run h (body sw) w)))
                    (world (run h (body sw) w))),
    match result (run h (cleanup (self_after (run h (body sw) w)))
                      (world (run h (body sw) w))) with
    | inl e => inl e
    | inr _ => result (run h (body sw) w)
    end)).
Proof.
  unfold with_statement, __enter__. rewrite run_bind.
  cbn [gets run result snd fst calls world self_after app].
  rewrite run_bind, run_try.
  cbn [result snd fst calls world self_after].
  unfold result, self_after, calls, world.
  destruct (run h (body sw) w) as [[lb wb] [sb [e | completion]]];
    cbn [fst snd]; rewrite run_bind; unfold __exit__, result, self_after, calls, world;
    destruct (run h (cleanup sb) wb) as [[lc wc] [sc [e2 | []]]];
    cbn [fst snd run raise ret]; rewrite ?app_nil_r; reflexivity.
Qed.

(** X6: [with ChromatekSwitch(brightness) as switch: body].  When the
    constructor raises, the block ends with that exception after the
    constructor's calls alone: the body does not run and neither does
    [cleanup].  When it returns a controller, the calls are those of the
    constructor, then of the body, then of one [cleanup], and the block ends
    as the body ended unless [cleanup] raised. *)
Theorem scoped_construction :
  forall (A : Type) (brightness : Z)
         (body : M Exn ChromatekSwitch (Completion A)) (w : W),
    (forall e : Exn,
        result (run h (__init__ brightness tt) w) = inl e ->
        run h (scoped brightness body) w
        = (calls (run h (__init__ brightness tt) w),
           world (run h (__init__ brightness tt) w), inl e))
    /\ (forall sw : ChromatekSwitch,
          result (run h (__init__ brightness tt) w) = inr sw ->
          run h (scoped brightness body) w
          = (calls (run h (__init__ brightness tt) w)
               ++ calls (run h (body sw) (world (run h (__init__ brightness tt) w)))
               ++ calls (run h (cleanup
                                  (self_after
                                     (run h (body sw)
                                          (world (run h (__init__ brightness tt) w)))))
                             (world (run h (body sw)
                                         (world (run h (__init__ brightness tt) w))))),
             world (run h (cleanup
                             (self_after
                                (run h (body sw)
                                     (world (run h (__init__ brightness tt) w)))))
                        (world (run h (body sw)
                                    (world (run h (__init__ brightness tt) w))))),
             match result (run h (cleanup
                                    (self_after
                                       (run h (body sw)
                                            (world (run h (__init__ brightness tt) w)))))
                               (world (run h (body sw)
                                           (world (run h (__init__ brightness tt) w)))))
             with
             | inl e => inl e
             | inr _ => result (run h (body sw)
                                    (world (run h (__init__ brightness tt) w)))
             end)).
Proof.
  intros A brightness body w. unfold scoped. rewrite run_pbind.
  unfold result at 1 2. 
  split.
  - intros e He. rewrite He. cbn [run calls world fst snd].
    now rewrite app_nil_r.
  - intros sw Hsw. rewrite Hsw. rewrite run_pbind, run_with_statement.
    cbn [run calls world fst snd result self_after].
    now rewrite app_nil_r.
Qed.

(** ** Any use of a constructed controller *)

Lemma run_get_button_state_any (sw : ChromatekSwitch) (w : W) :
  run h (get_button_state sw) w
  = ([GPIO_input BUTTON_PIN], fst (h (GPIO_input BUTTON_PIN) w),
     (sw, match snd (h (GPIO_input BUTTON_PIN) w) with
          | inl e => inl e
          | inr level => inr (level =? GPIO_LOW)
          end)).
Proof.
  destruct (h (GPIO_input BUTTON_PIN) w) as [w' [e | level]] eqn:Hin.
  - now rewrite (get_button_state_raises w w' sw e Hin).
  - now rewrite (run_get_button_state w w' sw level Hin).
Qed.

(** What the handler calls, whatever the read gives. *)
Lemma button_event_handler_calls (channel : Z) (sw : ChromatekSwitch) (w : W) :
  exists done : list Callback,
    calls (run h (_button_event_handler channel sw) w)
    = GPIO_input BUTTON_PIN :: map Invoke done
    /\ incl done (_press_callbacks sw ++ _release_callbacks sw)
    /\ self_after (run h (_button_event_handler channel sw) w) = sw.
Proof.
  destruct (h (GPIO_input BUTTON_PIN) w) as [w' [e | level]] eqn:Hin.
  - exists []. rewrite (run_button_event_handler_unreadable w w' sw channel e Hin).
    repeat split. intros cb [].
  - rewrite (run_button_event_handler w w' sw channel level Hin).
    destruct (run_invoke_loop (listeners (transition_of_level level) sw) sw w')
      as (done & rest & Hsplit & Hcalls & Hself & _).
    exists done. unfold calls, self_after in *. cbn [fst snd].
    rewrite Hcalls. repeat split; [| exact Hself].
    intros cb Hcb. apply in_or_app.
    destruct (transition_of_level level); cbn [listeners] in Hsplit;
      [left | right]; rewrite Hsplit; apply in_or_app; now left.
Qed.

Lemma own_call_map_Invoke (sw : ChromatekSwitch) (l : list Callback) :
  forallb (own_call sw) (map Invoke l) = true.
Proof. induction l as [| cb l IH]; [reflexivity | exact IH]. Qed.

Lemma subscription_map_Invoke (l : list Callback) :
  filter is_subscription (map Invoke l) = [].
Proof. induction l as [| cb l IH]; [reflexivity | exact IH]. Qed.

Lemma strip_call_map_Invoke (l : list Callback) :
  filter is_strip_call (map Invoke l) = [].
Proof. induction l as [| cb l IH]; [reflexivity | exact IH]. Qed.

Lemma own_call_same_strip (sw sw' : ChromatekSwitch) (c : Call) :
  strip sw' = strip sw -> own_call sw' c = own_call sw c.
Proof. intro Hs. destruct c; cbn; now rewrite ?Hs. Qed.

Lemma own_calls_same_strip (sw sw' : ChromatekSwitch) (l : list Call) :
  strip sw' = strip sw -> forallb (own_call sw') l = forallb (own_call sw) l.
Proof.
  intro Hs. induction l as [| c l IH]; [reflexivity |].
  cbn [forallb]. now rewrite IH, (own_call_same_strip sw sw' c Hs).
Qed.

(** One use: what it leaves of the object and which calls it makes. *)
Lemma do_op_facts (o : Op) (sw : ChromatekSwitch) (w : W) :
  strip (self_after (run h (do_op o sw) w)) = strip sw
  /\ LED_BRIGHTNESS (self_after (run h (do_op o sw) w)) = LED_BRIGHTNESS sw
  /\ (forall k : Transition,
        listeners k (self_after (run h (do_op o sw) w))
        = listeners k sw ++ registered k (registrations_of [o]))
  /\ (_button_event_added sw = true ->
      _button_event_added (self_after (run h (do_op o sw) w)) = true
      /\ filter is_subscription (calls (run h (do_op o sw) w)) = [])
  /\ forallb (own_call sw) (calls (run h (do_op o sw) w)) = true
  /\ incl (invocations (calls (run h (do_op o sw) w)))
          (_press_callbacks sw ++ _release_callbacks sw).
Proof.
  assert (Hnil : forall k, listeners k sw = listeners k sw ++ registered k [])
    by (intro k; cbn; now rewrite app_nil_r).
  assert (Hincl : incl (@nil Callback) (_press_callbacks sw ++ _release_callbacks sw))
    by (intros cb []).
  destruct o as [red green blue | red green blue | | brightness | | cb | cb
                 | channel | ]; cbn [do_op registrations_of].
  - rewrite run_set_color.
    destruct (snd (h (led_write sw red green blue) w)) as [e | []];
      cbn; rewrite ?Nat.eqb_refl; repeat split; auto.
  - unfold turn_on. rewrite run_set_color.
    destruct (snd (h (led_write sw red green blue) w)) as [e | []];
      cbn; rewrite ?Nat.eqb_refl; repeat split; auto.
  - unfold turn_off. rewrite run_set_color.
    destruct (snd (h (led_write sw 0 0 0) w)) as [e | []];
      cbn; rewrite ?Nat.eqb_refl; repeat split; auto.
  - rewrite run_set_brightness.
    destruct (snd (h (led_dim sw brightness) w)) as [e | []];
      cbn; rewrite ?Nat.eqb_refl; repeat split; auto.
  - rewrite run_bind, run_get_button_state_any.
    cbn [result self_after calls world fst snd].
    destruct (snd (h (GPIO_input BUTTON_PIN) w)) as [e | level];
      cbn; repeat split; auto.
  - change (on_button_press cb) with (@register Exn (Pressed, cb)).
    pose proof (fun k => listeners_after_register k (Pressed, cb) sw w) as Hl.
    rewrite run_register in *.
    destruct (_button_event_added sw) eqn:Hflag;
      [| destruct (snd (h subscription w)) as [e | []]];
      cbn [self_after calls fst snd] in *; repeat split; auto;
      try (cbn; assumption); discriminate.
  - change (on_button_release cb) with (@register Exn (Released, cb)).
    pose proof (fun k => listeners_after_register k (Released, cb) sw w) as Hl.
    rewrite run_register in *.
    destruct (_button_event_added sw) eqn:Hflag;
      [| destruct (snd (h subscription w)) as [e | []]];
      cbn [self_after calls fst snd] in *; repeat split; auto;
      try (cbn; assumption); discriminate.
  - destruct (button_event_handler_calls channel sw w)
      as (done & Hcalls & Hdone & Hself).
    rewrite Hcalls, Hself. cbn [forallb own_call filter is_subscription invocations].
    rewrite own_call_map_Invoke, subscription_map_Invoke, invocations_map_Invoke.
    repeat split; auto.
  - rewrite run_cleanup.
    destruct (snd (h (led_write sw 0 0 0) w)) as [e | []];
      [| destruct (snd (h (led_show sw) _)) as [e | []]];
      cbn; rewrite ?Nat.eqb_refl; repeat split; auto.
Qed.

Lemma run_session_cons (o : Op) (ops : list Op) (sw : ChromatekSwitch) (w : W) :
  run h (session (o :: ops) sw) w
  = (calls (run h (do_op o sw) w)
       ++ calls (run h (session ops (self_after (run h (do_op o sw) w)))
                     (world (run h (do_op o sw) w))),
     world (run h (session ops (self_after (run h (do_op o sw) w)))
                (world (run h (do_op o sw) w))),
     snd (run h (session ops (self_after (run h (do_op o sw) w)))
              (world (run h (do_op o sw) w)))).
Proof.
  unfold session. cbn [for_each]. rewrite run_bind, run_bind, run_try.
  cbn [result self_after calls world fst snd run ret].
  now rewrite app_nil_r.
Qed.

Lemma registrations_of_cons (o : Op) (ops : list Op) :
  registrations_of (o :: ops) = registrations_of [o] ++ registrations_of ops.
Proof. destruct o; reflexivity. Qed.

Lemma registered_app (k : Transition) (rs1 rs2 : list (Transition * Callback)) :
  registered k (rs1 ++ rs2) = registered k rs1 ++ registered k rs2.
Proof. unfold registered. now rewrite filter_app, map_app. Qed.

Lemma session_facts (ops : list Op) (sw : ChromatekSwitch) (w : W) :
  strip (self_after (run h (session ops sw) w)) = strip sw
  /\ LED_BRIGHTNESS (self_after (run h (session ops sw) w)) = LED_BRIGHTNESS sw
  /\ (forall k : Transition,
        listeners k (self_after (run h (session ops sw) w))
        = listeners k sw ++ registered k (registrations_of ops))
  /\ (_button_event_added sw = true ->
      _button_event_added (self_after (run h (session ops sw) w)) = true
      /\ filter is_subscription (calls (run h (session ops sw) w)) = [])
  /\ forallb (own_call sw) (calls (run h (session ops sw) w)) = true
  /\ incl (invocations (calls (run h (session ops sw) w)))
          (_press_callbacks (self_after (run h (session ops sw) w))
           ++ _release_callbacks (self_after (run h (session ops sw) w)))
  /\ result (run h (session ops sw) w) = inr tt.
Proof.
  revert sw w. induction ops as [| o ops IH]; intros sw w.
  - cbn. repeat split; auto; try (intro k; now rewrite app_nil_r).
    intros cb [].
  - rewrite run_session_cons.
    destruct (do_op_facts o sw w) as (Hs1 & Hb1 & Hl1 & Hf1 & Ho1 & Hi1).
    destruct (IH (self_after (run h (do_op o sw) w)) (world (run h (do_op o sw) w)))
      as (Hs2 & Hb2 & Hl2 & Hf2 & Ho2 & Hi2 & Hr2).
    pose proof (Hl1 Pressed) as Hp1. pose proof (Hl1 Released) as Hq1.
    pose proof (Hl2 Pressed) as Hp2. pose proof (Hl2 Released) as Hq2.
    cbn [listeners] in Hp1, Hq1, Hp2, Hq2.
    unfold self_after, calls, result, world in *. cbn [fst snd] in *.
    split; [congruence |]. split; [congruence |].
    split.
    { intro k. rewrite (registrations_of_cons o ops), registered_app, Hl2, Hl1.
      now rewrite app_assoc. }
    split.
    { intro Hflag. destruct (Hf1 Hflag) as [Hflag1 Hsub1].
      destruct (Hf2 Hflag1) as [Hflag2 Hsub2].
      split; [exact Hflag2 |]. now rewrite filter_app, Hsub1, Hsub2. }
    split.
    { rewrite forallb_app, Ho1. cbn [andb].
      rewrite <- Ho2. symmetry. now apply own_calls_same_strip. }
    split; [| exact Hr2].
    rewrite invocations_app. intros cb Hcb.
    apply in_app_or in Hcb. destruct Hcb as [Hcb | Hcb]; [| now apply Hi2].
    apply Hi1 in Hcb. apply in_app_or in Hcb. apply in_or_app.
    destruct Hcb as [Hcb | Hcb]; [left; rewrite Hp2, Hp1 | right; rewrite Hq2, Hq1];
      apply in_or_app; left; apply in_or_app; now left.
Qed.

(** X7: the LED side and the button side of the controller do not touch
    each other.  The LED methods call neither the GPIO library nor any
    listener, and [set_brightness] writes no pixel; polling the button, the
    registrations and the event handler make no call on the pixel strip. *)
Theorem led_and_button_methods_are_separate :
  forall (o : Op) (sw : ChromatekSwitch) (w : W),
    (led_op o = true ->
     filter is_gpio_call (calls (run h (do_op o sw) w)) = []
     /\ invocations (calls (run h (do_op o sw) w)) = [])
    /\ (led_op o = false -> o <> Op_cleanup ->
        filter is_strip_call (calls (run h (do_op o sw) w)) = [])
    /\ (forall brightness : Z,
          filter is_pixel_write (calls (run h (set_brightness brightness sw) w)) = []).
Proof.
  intros o sw w. split; [| split].
  - destruct o as [red green blue | red green blue | | brightness | | cb | cb
                   | channel | ]; cbn [led_op do_op]; try discriminate; intros _.
    + rewrite run_set_color.
      destruct (snd (h (led_write sw red green blue) w)) as [e | []];
        split; reflexivity.
    + unfold turn_on. rewrite run_set_color.
      destruct (snd (h (led_write sw red green blue) w)) as [e | []];
        split; reflexivity.
    + unfold turn_off. rewrite run_set_color.
      destruct (snd (h (led_write sw 0 0 0) w)) as [e | []]; split; reflexivity.
    + rewrite run_set_brightness.
      destruct (snd (h (led_dim sw brightness) w)) as [e | []]; split; reflexivity.
  - destruct o as [red green blue | red green blue | | brightness | | cb | cb
                   | channel | ]; cbn [led_op do_op]; try discriminate;
      intros _ Hnot.
    + rewrite run_bind, run_get_button_state_any.
      cbn [result self_after calls world fst snd].
      destruct (snd (h (GPIO_input BUTTON_PIN) w)) as [e | level]; reflexivity.
    + change (on_button_press cb) with (@register Exn (Pressed, cb)).
      rewrite run_register.
      destruct (_button_event_added sw);
        [| destruct (snd (h subscription w)) as [e | []]]; reflexivity.
    + change (on_button_release cb) with (@register Exn (Released, cb)).
      rewrite run_register.
      destruct (_button_event_added sw);
        [| destruct (snd (h subscription w)) as [e | []]]; reflexivity.
    + destruct (button_event_handler_calls channel sw w) as (done & Hcalls & _ & _).
      rewrite Hcalls. cbn [filter is_strip_call]. apply strip_call_map_Invoke.
    + now contradiction Hnot.
  - intro brightness. rewrite run_set_brightness.
    destruct (snd (h (led_dim sw brightness) w)) as [e | []]; reflexivity.
Qed.

(** X8: whatever is done with a constructed controller (any sequence of
    method calls and notifications, failing or not), its strip and its
    LED_BRIGHTNESS attribute never change (not even by [set_brightness]),
    listeners are only ever appended: each collection afterwards is the
    collection before followed by the registrations of its kind, in order,
    including those whose subscription request raised; and a subscription
    flag that is set stays set, also across [cleanup]. *)
Theorem session_object_invariants :
  forall (ops : list Op) (sw : ChromatekSwitch) (w : W),
    strip (self_after (run h (session ops sw) w)) = strip sw
    /\ LED_BRIGHTNESS (self_after (run h (session ops sw) w)) = LED_BRIGHTNESS sw
    /\ (forall k : Transition,
          listeners k (self_after (run h (session ops sw) w))
          = listeners k sw ++ registered k (registrations_of ops))
    /\ (_button_event_added sw = true ->
        _button_event_added (self_after (run h (session ops sw) w)) = true).
Proof.
  intros ops sw w.
  destruct (session_facts ops sw w) as (Hs & Hb & Hl & Hf & _).
  repeat split; auto. intro Hflag. apply (Hf Hflag).
Qed.

(** X9: after construction the controller stays on its own resources.  In
    any sequence of uses every library call is a write to pixel 0, a [show]
    or a brightness change of its own strip, a read or the subscription
    (both edges, 200 ms) of its button pin, or [GPIO.cleanup]; it never
    creates, begins or releases a strip and never reconfigures the GPIO
    library; and every callback it invokes is one of its registered
    listeners. *)
Theorem session_calls_stay_on_own_resources :
  forall (ops : list Op) (sw : ChromatekSwitch) (w : W),
    forallb (own_call sw) (calls (run h (session ops sw) w)) = true
    /\ incl (invocations (calls (run h (session ops sw) w)))
            (_press_callbacks (self_after (run h (session ops sw) w))
             ++ _release_callbacks (self_after (run h (session ops sw) w))).
Proof.
  intros ops sw w.
  destruct (session_facts ops sw w) as (_ & _ & _ & _ & Ho & Hi & _).
  split; assumption.
Qed.

(** X10: once the subscription flag is set, the controller never asks for
    the subscription again, whatever is done with it; in particular not
    after [cleanup], so listeners registered after a [cleanup] are kept but
    no new edge detection is requested for them. *)
Theorem no_resubscription_once_flag_set :
  forall (ops : list Op) (sw : ChromatekSwitch) (w : W),
    _button_event_added sw = true ->
    filter is_subscription (calls (run h (session ops sw) w)) = [].
Proof.
  intros ops sw w Hflag.
  destruct (session_facts ops sw w) as (_ & _ & _ & Hf & _).
  apply (Hf Hflag).
Qed.

(** ** The polling and toggle examples *)

Lemma set_color_keeps_object (red green blue : Z) (sw : ChromatekSwitch) (w : W) :
  self_after (run h (set_color red green blue sw) w) = sw.
Proof.
  rewrite run_set_color.
  destruct (snd (h (led_write sw red green blue) w)) as [e | []]; reflexivity.
Qed.

Lemma run_poll_step (last_state : bool) (sw : ChromatekSwitch) (w w1 : W)
      (level : Z) :
  h (GPIO_input BUTTON_PIN) w = (w1, inr level) ->
  run h (poll_step last_state sw) w =
  if Bool.eqb (level =? GPIO_LOW) last_state
  then ([GPIO_input BUTTON_PIN], w1, (sw, inr last_state))
  else (GPIO_input BUTTON_PIN
          :: calls (run h (set_color (if level =? GPIO_LOW then 0 else 255) 255 0 sw) w1),
        world (run h (set_color (if level =? GPIO_LOW then 0 else 255) 255 0 sw) w1),
        (sw,
         match result (run h (set_color (if level =? GPIO_LOW then 0 else 255) 255 0 sw) w1)
         with
         | inl e => inl e
         | inr _ => inr (level =? GPIO_LOW)
         end)).
Proof.
  intro Hin. unfold poll_step.
  rewrite run_bind, (run_get_button_state w w1 sw level Hin).
  cbn [result self_after calls world fst snd].
  destruct (Bool.eqb (level =? GPIO_LOW) last_state); cbn [negb]; [reflexivity |].
  rewrite run_bind.
  destruct (level =? GPIO_LOW); cbv iota.
  - pose proof (set_color_keeps_object 0 255 0 sw w1) as Hkeep.
    unfold result, self_after, calls, world in *.
    destruct (run h (set_color 0 255 0 sw) w1) as [[l w2] [s [e | []]]];
      cbn [fst snd run ret app] in *; subst s; rewrite ?app_nil_r; reflexivity.
  - pose proof (set_color_keeps_object 255 255 0 sw w1) as Hkeep.
    unfold result, self_after, calls, world in *.
    destruct (run h (set_color 255 255 0 sw) w1) as [[l w2] [s [e | []]]];
      cbn [fst snd run ret app] in *; subst s; rewrite ?app_nil_r; reflexivity.
Qed.

(** X11: one turn of the polling loop compares the state it reads with the
    one it recorded.  When they are equal it does nothing but the read and
    keeps the recorded state; when they differ it writes one color, green
    for a press and yellow for a release, and records the new state
    provided the write returned. *)
Theorem poll_step_acts_on_change_only :
  forall (last_state : bool) (sw : ChromatekSwitch) (w w1 : W) (level : Z),
    h (GPIO_input BUTTON_PIN) w = (w1, inr level) ->
    ((level =? GPIO_LOW) = last_state ->
     run h (poll_step last_state sw) w
     = ([GPIO_input BUTTON_PIN], w1, (sw, inr last_state)))
    /\ ((level =? GPIO_LOW) <> last_state ->
        calls (run h (poll_step last_state sw) w)
        = GPIO_input BUTTON_PIN
            :: calls (run h (set_color (if level =? GPIO_LOW then 0 else 255)
                                       255 0 sw) w1)
        /\ (result (run h (set_color (if level =? GPIO_LOW then 0 else 255)
                                     255 0 sw) w1) = inr tt ->
            result (run h (poll_step last_state sw) w) = inr (level =? GPIO_LOW))).
Proof.
  intros last_state sw w w1 level Hin.
  rewrite (run_poll_step last_state sw w w1 level Hin).
  split.
  - intro Hsame. rewrite Hsame, Bool.eqb_reflx. reflexivity.
  - intro Hdiff.
    destruct (Bool.eqb (level =? GPIO_LOW) last_state) eqn:Heq.
    + apply Bool.eqb_prop in Heq. contradiction.
    + split; [reflexivity |]. intro Hret.
      unfold result at 1. cbn [fst snd]. now rewrite Hret.
Qed.

Lemma run_on_switch {S A : Type} (m : M Exn ChromatekSwitch A) (s : S)
      (sw : ChromatekSwitch) (w : W) :
  run h (on_switch m (s, sw)) w
  = (calls (run h (m sw) w), world (run h (m sw) w),
     ((s, self_after (run h (m sw) w)), result (run h (m sw) w))).
Proof.
  unfold on_switch. rewrite run_pbind. cbn [run calls world fst snd].
  unfold self_after, result. now rewrite app_nil_r.
Qed.

Lemma run_toggle_led (led_state : bool) (sw : ChromatekSwitch) (w : W) :
  run h (toggle_led (led_state, sw)) w
  = (calls (run h (set_color 0 (if negb led_state then 255 else 0)
                             (if negb led_state then 255 else 0) sw) w),
     world (run h (set_color 0 (if negb led_state then 255 else 0)
                             (if negb led_state then 255 else 0) sw) w),
     ((negb led_state, sw),
      result (run h (set_color 0 (if negb led_state then 255 else 0)
                               (if negb led_state then 255 else 0) sw) w))).
Proof.
  unfold toggle_led. rewrite run_bind.
  cbn [modify run result self_after calls world fst snd app].
  rewrite run_bind. cbn [gets run result self_after calls world fst snd app].
  destruct (negb led_state); [| unfold turn_off];
    rewrite run_on_switch, set_color_keeps_object; reflexivity.
Qed.

Lemma set_color_returned_calls (red green blue : Z) (sw : ChromatekSwitch) (w : W) :
  result (run h (set_color red green blue sw) w) = inr tt ->
  calls (run h (set_color red green blue sw) w)
  = [led_write sw red green blue; led_show sw].
Proof.
  rewrite run_set_color.
  destruct (snd (h (led_write sw red green blue) w)) as [e | []];
    [discriminate | reflexivity].
Qed.

Lemma run_toggles_succ (n : nat) (led_state : bool) (sw : ChromatekSwitch) (w : W) :
  run h (toggles (S n) (led_state, sw)) w
  = match result (run h (toggle_led (led_state, sw)) w) with
    | inl e =>
        (calls (run h (toggle_led (led_state, sw)) w),
         world (run h (toggle_led (led_state, sw)) w),
         ((negb led_state, sw), inl e))
    | inr _ =>
        (calls (run h (toggle_led (led_state, sw)) w)
           ++ calls (run h (toggles n (negb led_state, sw))
                         (world (run h (toggle_led (led_state, sw)) w))),
         world (run h (toggles n (negb led_state, sw))
                    (world (run h (toggle_led (led_state, sw)) w))),
         snd (run h (toggles n (negb led_state, sw))
                  (world (run h (toggle_led (led_state, sw)) w))))
    end.
Proof.
  cbn [toggles]. rewrite run_bind.
  assert (Hself : self_after (run h (toggle_led (led_state, sw)) w)
                  = (negb led_state, sw))
    by (rewrite run_toggle_led; reflexivity).
  rewrite Hself. reflexivity.
Qed.

(** X13: the press listener of the toggle example.  After [n] presses
    whose LED writes all returned, the cell [led_state] is its initial
    content flipped [n] times and the LED was written in step with it (cyan
    when it became True, off when it became False, each write followed by
    [show]).  A press whose LED write raises has already flipped the cell:
    the state then says the opposite of what the LED shows. *)
Theorem toggles_follow_led_state :
  forall (n : nat) (led_state : bool) (sw : ChromatekSwitch) (w : W),
    (result (run h (toggles n (led_state, sw)) w) = inr tt ->
     self_after (run h (toggles n (led_state, sw)) w)
       = (xorb led_state (Nat.odd n), sw)
     /\ calls (run h (toggles n (led_state, sw)) w) = toggle_calls sw led_state n)
    /\ (forall e : Exn,
          result (run h (toggle_led (led_state, sw)) w) = inl e ->
          self_after (run h (toggle_led (led_state, sw)) w) = (negb led_state, sw)).
Proof.
  intros n led_state sw w. split.
  - revert led_state w. induction n as [| n IH]; intros led_state w.
    + intros _. cbn. now destruct led_state.
    + rewrite run_toggles_succ.
      pose proof (set_color_returned_calls
                    0 (if negb led_state then 255 else 0)
                    (if negb led_state then 255 else 0) sw w) as Hset.
      rewrite run_toggle_led.
      unfold result, self_after, calls, world in *. cbn [fst snd] in *.
      destruct (snd (snd (run h (set_color 0 (if negb led_state then 255 else 0)
                                           (if negb led_state then 255 else 0) sw) w)))
        as [e | []]; [discriminate |].
      cbn [fst snd]. intro Hrest.
      destruct (IH (negb led_state) _ Hrest) as [Hstate Hcalls].
      rewrite Hstate, Hcalls, (Hset eq_refl).
      split.
      * f_equal. rewrite Nat.odd_succ, <- Nat.negb_odd.
        now destruct led_state, (Nat.odd n).
      * cbn [toggle_calls app]. now destruct led_state.
  - intros e _. rewrite run_toggle_led. reflexivity.
Qed.

End Facts.

(** ** Notifications on the bench *)

Lemma bench_invoke_loop (cbs : list Callback) (sw : ChromatekSwitch) (w : World) :
  (forall c, faults w c = false) ->
  run platform (for_each cbs (fun cb => call (Invoke cb)) sw) w
  = (map Invoke cbs, w, (sw, inr tt)).
Proof.
  intro Hok. induction cbs as [| cb cbs IH]; [reflexivity |].
  assert (Hcall : platform (Invoke cb) w = (w, inr tt))
    by (unfold platform; now rewrite Hok).
  cbn [for_each]. rewrite run_bind, (run_call PyError World platform (Invoke cb)).
  rewrite Hcall. cbn [result snd fst calls world self_after]. rewrite IH.
  reflexivity.
Qed.

Lemma bench_notification (sw : ChromatekSwitch) (w : World) (channel level : Z) :
  membZ BUTTON_PIN (gpio_channels w) = true ->
  (forall c, faults w c = false) ->
  run platform (_button_event_handler channel sw) (set_button_line level w)
  = (GPIO_input BUTTON_PIN :: map Invoke (listeners (transition_of_level level) sw),
     set_button_line level w, (sw, inr tt)).
Proof.
  intros Hpin Hok.
  assert (Hin : platform (GPIO_input BUTTON_PIN) (set_button_line level w)
                = (set_button_line level w, inr level)).
  { unfold platform. cbn [faults set_button_line gpio_channels button_line].
    now rewrite Hok, Hpin. }
  rewrite (run_button_event_handler PyError World platform _ _ sw channel level Hin).
  rewrite bench_invoke_loop by exact Hok. reflexivity.
Qed.

(** C1, as the code has it: the handler keeps neither a recorded state nor
    a time stamp.  On a bench whose button line is configured and where no
    call fails, every notification delivered to the handler is dispatched,
    whatever its time and whatever was dispatched before: the listeners
    invoked over a sequence of samples are, sample by sample, the collection
    its level selects; the line is read once per sample and the controller
    object is never changed.  The time gate is left to the library: the
    subscription the controller requests carries a bouncetime of 200 ms. *)
Theorem handler_dispatches_every_notification :
  forall (samples : list Sample) (sw : ChromatekSwitch) (w : World),
    membZ BUTTON_PIN (gpio_channels w) = true ->
    (forall c, faults w c = false) ->
    invocations (calls (deliver samples sw w))
    = List.concat (map (fun s => listeners (transition_of_level (raw s)) sw) samples)
    /\ snd (deliver samples sw w) = sw
    /\ List.length (filter is_sampling (calls (deliver samples sw w)))
       = List.length samples
    /\ (_button_event_added sw = false ->
        calls (run platform (_setup_button_events sw) w)
        = [GPIO_add_event_detect BUTTON_PIN BOTH 200]).
Proof.
  assert (Hsub : forall (sw : ChromatekSwitch) (w : World),
             _button_event_added sw = false ->
             calls (run platform (_setup_button_events sw) w)
             = [GPIO_add_event_detect BUTTON_PIN BOTH 200]).
  { intros sw w Hflag. rewrite run_setup_button_events, Hflag.
    destruct (snd (platform subscription w)) as [e | []]; reflexivity. }
  induction samples as [| s rest IH]; intros sw w Hpin Hok.
  - repeat split. apply Hsub.
  - cbn [deliver]. rewrite (bench_notification sw w BUTTON_PIN (raw s) Hpin Hok).
    cbn [fst snd].
    destruct (IH sw (set_button_line (raw s) w) Hpin Hok)
      as (Hinv & Hsw & Hcnt & _).
    split; [| split; [| split; [| apply Hsub]]];
      unfold calls in *; cbn [fst snd map List.concat].
    + change (invocations (map Invoke (listeners (transition_of_level (raw s)) sw)
                           ++ fst (fst (deliver rest sw (set_button_line (raw s) w))))
              = listeners (transition_of_level (raw s)) sw
                ++ List.concat (map (fun s0 => listeners (transition_of_level (raw s0)) sw)
                                    rest)).
      now rewrite invocations_app, invocations_map_Invoke, Hinv.
    + exact Hsw.
    + change (S (List.length
                   (filter is_sampling
                      (map Invoke (listeners (transition_of_level (raw s)) sw)
                       ++ fst (fst (deliver rest sw (set_button_line (raw s) w))))))
              = S (List.length rest)).
      rewrite filter_app, sampling_map_Invoke. cbn [app]. now rewrite Hcnt.
Qed.

(** ** The controller on the bench *)

(** Against C1: two notifications that both read LOW, 250 ms apart, pass
    the library's bouncetime of 200 ms and invoke the press listener twice,
    where the detector of the specification dispatches once; and LOW, LOW,
    HIGH, LOW within 30 ms, when all four reach the handler, give four
    dispatches instead of one. *)
Lemma repeated_level_dispatched_again :
  debounced 200 None repeat_samples = repeat_samples
  /\ invocations (calls (deliver repeat_samples demo_switch bench))
     = ["on_press"%string; "on_press"%string]
  /\ spec_dispatches demo_switch repeat_samples = ["on_press"%string]
  /\ invocations (calls (deliver repeat_samples demo_switch bench))
     <> spec_dispatches demo_switch repeat_samples
  /\ invocations (calls (deliver bounce_samples demo_switch bench))
     = ["on_press"%string; "on_press"%string; "on_release"%string;
        "on_press"%string]
  /\ spec_dispatches demo_switch bounce_samples = ["on_press"%string].
Proof. repeat split; vm_compute; try reflexivity. discriminate. Qed.

(** With the library's bouncetime in front of the handler, the four samples
    of the bounce reach it once. *)
Lemma bounce_filtered_by_library :
  debounced 200 None bounce_samples = [mkSample 0 GPIO_LOW]
  /\ invocations (calls (deliver (debounced 200 None bounce_samples)
                                 demo_switch bench))
     = ["on_press"%string].
Proof. split; vm_compute; reflexivity. Qed.

Lemma handler_dispatches_every_notification_witness :
  membZ BUTTON_PIN (gpio_channels bench) = true
  /\ (forall c, faults bench c = false)
  /\ invocations (calls (deliver bounce_samples demo_switch bench))
     = List.concat (map (fun s => listeners (transition_of_level (raw s)) demo_switch)
                        bounce_samples).
Proof.
  split; [reflexivity | split; [intro c; reflexivity |]].
  apply (handler_dispatches_every_notification bounce_samples demo_switch bench);
    [reflexivity | intro c; reflexivity].
Defined.

(** Against C2: after the registrations of the example and a [cleanup] that
    returned, [set_color] returns and lights the LED red, [set_brightness]
    returns, and a further registration returns without any library call. *)
Lemma operations_succeed_after_cleanup :
  result after_release = inr tt
  /\ result (run platform (set_color 255 0 0 released_switch) released_world)
     = inr tt
  /\ displayed (world (run platform (set_color 255 0 0 released_switch)
                           released_world))
     = [Some ([16711680], 255)]
  /\ result (run platform (set_brightness 10 released_switch) released_world)
     = inr tt
  /\ run platform (on_button_press "late"%string released_switch) released_world
     = ([], released_world,
        (mkSwitch 255 0%nat ["on_press"%string; "late"%string]
                  ["on_release"%string] true, inr tt)).
Proof. repeat split; vm_compute; reflexivity. Qed.

Lemma operations_after_cleanup_not_refused_witness :
  run platform (cleanup demo_switch) bench
  = (cleanup_calls demo_switch,
     world (run platform (cleanup demo_switch) bench), (demo_switch, inr tt))
  /\ run platform (set_color 255 0 0 demo_switch)
         (world (run platform (cleanup demo_switch) bench))
     = ([led_write demo_switch 255 0 0; led_show demo_switch],
        world (run platform (set_color 255 0 0 demo_switch)
                   (world (run platform (cleanup demo_switch) bench))),
        (demo_switch, inr tt))
  /\ run platform (register (Pressed, "late"%string) demo_switch)
         (world (run platform (cleanup demo_switch) bench))
     = ([], world (run platform (cleanup demo_switch) bench),
        (append_listener (Pressed, "late"%string) demo_switch, inr tt)).
Proof.
  split; [reflexivity |].
  destruct (operations_after_cleanup_not_refused PyError World platform
              bench (world (run platform (cleanup demo_switch) bench))
              demo_switch demo_switch (cleanup_calls demo_switch) eq_refl)
    as (_ & Hcolor & _ & _ & Hregister).
  split.
  - apply (Hcolor 255 0 0
             (fst (platform (led_write demo_switch 255 0 0)
                            (world (run platform (cleanup demo_switch) bench)))));
      reflexivity.
  - apply Hregister. reflexivity.
Defined.

(** Against C3: when the button line cannot be configured, the constructor
    fails after having begun the strip; the strip is still live and no
    release call was made. *)
Lemma failed_construction_leaves_strip_begun :
  result (run platform (__init__ 255 tt) (power_on setup_refused))
  = inl (RuntimeError "hardware fault")
  /\ calls (run platform (__init__ 255 tt) (power_on setup_refused))
     = construction_calls 255 0%nat
  /\ live_strips (world (run platform (__init__ 255 tt) (power_on setup_refused)))
     = [true].
Proof. repeat split; vm_compute; reflexivity. Qed.

Lemma construction_fails_whole_without_release_witness :
  platform (strip_new 255) (power_on setup_refused)
  = (fst (platform (strip_new 255) (power_on setup_refused)), inr 0%nat)
  /\ run platform (__init__ 255 tt) (power_on setup_refused)
     = (construction_calls 255 0%nat,
        world (run platform (__init__ 255 tt) (power_on setup_refused)),
        (tt, inl (RuntimeError "hardware fault"))).
Proof.
  split; [reflexivity |].
  apply (proj1 (proj2 (proj2
           (construction_fails_whole_without_release PyError World platform
              (power_on setup_refused) 255)))
           0%nat
           (fst (platform (strip_new 255) (power_on setup_refused)))
           (fst (platform (PixelStrip_begin 0%nat)
                   (fst (platform (strip_new 255) (power_on setup_refused)))))
           (fst (platform (GPIO_setmode BCM)
                   (fst (platform (PixelStrip_begin 0%nat)
                           (fst (platform (strip_new 255)
                                          (power_on setup_refused)))))))
           (world (run platform (__init__ 255 tt) (power_on setup_refused)))
           (RuntimeError "hardware fault"));
    reflexivity.
Defined.

(** Against C5: after a [cleanup] that returned, the GPIO library has been
    cleaned up but the pixel strip is still live; no call released it. *)
Lemma cleanup_leaves_strip_live :
  result (run platform (cleanup fresh_switch) bench) = inr tt
  /\ calls (run platform (cleanup fresh_switch) bench) = cleanup_calls fresh_switch
  /\ gpio_mode (world (run platform (cleanup fresh_switch) bench)) = None
  /\ live_strips (world (run platform (cleanup fresh_switch) bench)) = [true].
Proof. repeat split; vm_compute; reflexivity. Qed.

Lemma cleanup_turns_off_then_releases_gpio_only_witness :
  result (run platform (cleanup fresh_switch) bench) = inr tt
  /\ calls (run platform (cleanup fresh_switch) bench) = cleanup_calls fresh_switch.
Proof.
  split; [reflexivity |].
  apply (proj1 (proj2 (cleanup_turns_off_then_releases_gpio_only
                         PyError World platform bench fresh_switch))).
  reflexivity.
Defined.

(** The LED shows zero after one and after two cleanups. *)
Lemma led_dark_after_cleanup :
  displayed (world (run platform (cleanup fresh_switch) bench)) = [Some ([0], 255)]
  /\ displayed (world (run platform (bind cleanup (fun _ => cleanup) fresh_switch)
                           bench))
     = [Some ([0], 255)].
Proof. split; vm_compute; reflexivity. Qed.

(** Against C6: [set_color 300 0 0] returns and what the LED shows changes
    from the color committed before to the out-of-range value. *)
Lemma out_of_range_color_is_written :
  displayed (world (run platform (set_color 10 20 30 fresh_switch) bench))
  = [Some ([pack (Color 10 20 30)], 255)]
  /\ result (run platform (set_color 300 0 0 fresh_switch)
                 (world (run platform (set_color 10 20 30 fresh_switch) bench)))
     = inr tt
  /\ displayed (world (run platform (set_color 300 0 0 fresh_switch)
                           (world (run platform (set_color 10 20 30 fresh_switch)
                                       bench))))
     = [Some ([pack (Color 300 0 0)], 255)]
  /\ pack (Color 300 0 0) <> pack (Color 10 20 30).
Proof. repeat split; vm_compute; try reflexivity. discriminate. Qed.

(** Three press listeners, one Pressed dispatch. *)
Lemma listeners_invoked_in_registration_order_witness :
  run platform (register_all three_press fresh_switch) pressed_bench
  = ([subscription],
     world (run platform (register_all three_press fresh_switch) pressed_bench),
     (append_all three_press (subscribed fresh_switch), inr tt))
  /\ invocations
       (calls (run platform
                 (_button_event_handler BUTTON_PIN
                    (append_all three_press (subscribed fresh_switch)))
                 (world (run platform (register_all three_press fresh_switch)
                             pressed_bench))))
     = ["first"%string; "second"%string; "third"%string].
Proof.
  split; [reflexivity |].
  apply (proj2 (listeners_invoked_in_registration_order PyError World platform
           pressed_bench
           (world (run platform (register_all three_press fresh_switch)
                       pressed_bench))
           (world (run platform (register_all three_press fresh_switch)
                       pressed_bench))
           fresh_switch (append_all three_press (subscribed fresh_switch))
           three_press [subscription] BUTTON_PIN GPIO_LOW
           eq_refl eq_refl eq_refl)).
Defined.

(** The same callback registered twice is invoked twice. *)
Lemma duplicate_listener_invoked_twice :
  invocations
    (calls (run platform
              (_button_event_handler BUTTON_PIN
                 (self_after (run platform (register_all twice_press fresh_switch)
                                  pressed_bench)))
              (world (run platform (register_all twice_press fresh_switch)
                          pressed_bench))))
  = ["beep"%string; "beep"%string].
Proof. vm_compute. reflexivity. Qed.

Lemma edge_subscription_activated_once_witness :
  _button_event_added fresh_switch = false
  /\ calls (run platform (register_all example_registrations fresh_switch) bench)
     = [subscription].
Proof.
  split; [reflexivity |].
  apply (proj1 (edge_subscription_activated_once PyError World platform bench
                  fresh_switch (Pressed, "on_press"%string)
                  [(Released, "on_release"%string)] eq_refl)).
Defined.

Lemma get_button_state_active_low_witness :
  platform (GPIO_input BUTTON_PIN) pressed_bench = (pressed_bench, inr GPIO_LOW)
  /\ run platform (get_button_state demo_switch) pressed_bench
     = ([GPIO_input BUTTON_PIN], pressed_bench, (demo_switch, inr true)).
Proof.
  split; [reflexivity |].
  apply (proj1 (get_button_state_active_low PyError World platform
                  pressed_bench pressed_bench demo_switch GPIO_LOW eq_refl)).
Defined.

Lemma handler_dispatches_by_level_read_witness :
  platform (GPIO_input BUTTON_PIN) pressed_bench = (pressed_bench, inr GPIO_LOW)
  /\ List.length (filter is_sampling
                    (calls (run platform (_button_event_handler BUTTON_PIN demo_switch)
                                pressed_bench))) = 1%nat.
Proof.
  split; [reflexivity |].
  apply (proj1 (proj2 (handler_dispatches_by_level_read PyError World platform
                         pressed_bench pressed_bench demo_switch BUTTON_PIN
                         GPIO_LOW eq_refl))).
Defined.

(** ** The polling example on the bench *)

Lemma nth_error_update_nth {A : Type} (l : list A) (n : nat) (x y : A) :
  nth_error l n = Some y -> nth_error (update_nth n x l) n = Some x.
Proof.
  revert n. induction l as [| a l IH]; intros [| n] Hn; cbn in *;
    try discriminate; [reflexivity | now apply IH].
Qed.

Lemma last_cons_default {A : Type} (l : list A) (a d : A) :
  last (a :: l) d = last l a.
Proof.
  revert a d. induction l as [| b l IH]; intros a d; [reflexivity |].
  change (last (b :: l) d = last (b :: l) a). now rewrite !IH.
Qed.

Lemma bench_ready_button_line (sw : ChromatekSwitch) (w : World) (level : Z) :
  bench_ready sw w -> bench_ready sw (set_button_line level w).
Proof. intros (Hpin & Hok & Hstrip). repeat split; assumption. Qed.

Lemma bench_read (sw : ChromatekSwitch) (w : World) :
  bench_ready sw w ->
  platform (GPIO_input BUTTON_PIN) w = (w, inr (button_line w)).
Proof.
  intros (Hpin & Hok & _). unfold platform. now rewrite Hok, Hpin.
Qed.

(** A color the library accepts is written and shown. *)
Lemma bench_set_color (red green blue : Z) (sw : ChromatekSwitch) (w : World) :
  bench_ready sw w ->
  (0 <=? pack (Color red green blue)) && (pack (Color red green blue) <? 2 ^ 32)
  = true ->
  result (run platform (set_color red green blue sw) w) = inr tt
  /\ calls (run platform (set_color red green blue sw) w)
     = [led_write sw red green blue; led_show sw]
  /\ bench_ready sw (world (run platform (set_color red green blue sw) w)).
Proof.
  intros (Hpin & Hok & st & Hnth & Hlive) Hrange.
  assert (Hwrite :
            platform (led_write sw red green blue) w
            = (with_strips w
                 (update_nth (strip sw)
                    (mkStrip true (strip_brightness st)
                       (update_nth (Z.to_nat 0) (pack (Color red green blue))
                                   (led_data st))
                       (shown st))
                    (strips w)), inr tt)).
  { unfold led_write, platform. cbv beta iota. rewrite Hok.
    unfold on_strip. rewrite Hnth, Hlive, Hrange. reflexivity. }
  set (st1 := mkStrip true (strip_brightness st)
                (update_nth (Z.to_nat 0) (pack (Color red green blue)) (led_data st))
                (shown st)) in *.
  set (w1 := with_strips w (update_nth (strip sw) st1 (strips w))) in *.
  assert (Hnth1 : nth_error (strips w1) (strip sw) = Some st1)
    by (apply (nth_error_update_nth _ _ _ st); exact Hnth).
  assert (Hshow :
            platform (led_show sw) w1
            = (with_strips w1
                 (update_nth (strip sw)
                    (mkStrip true (strip_brightness st1) (led_data st1)
                       (Some (led_data st1, strip_brightness st1)))
                    (strips w1)), inr tt)).
  { unfold led_show, platform. cbv beta iota.
    change (faults w1) with (faults w). rewrite Hok.
    unfold on_strip. rewrite Hnth1. reflexivity. }
  rewrite (run_set_color PyError World platform), Hwrite. cbn [fst snd].
  rewrite Hshow. unfold result, calls, world. cbn [fst snd].
  split; [reflexivity |]. split; [reflexivity |].
  split; [exact Hpin |]. split; [exact Hok |].
  exists (mkStrip true (strip_brightness st1) (led_data st1)
                  (Some (led_data st1, strip_brightness st1))).
  split; [| reflexivity].
  apply (nth_error_update_nth _ _ _ st1). exact Hnth1.
Qed.

(** X12: the polling loop of the example acts on changes only.  On a
    bench on which the controller can work, whatever the line does from
    turn to turn, the loop reads it once per turn, writes the LED exactly as
    often as the state read differs from the state read before (the first
    one from the initial [last_state]), and ends with the last state read
    as its recorded state. *)
Theorem polling_writes_once_per_change :
  forall (levels : list Z) (last_state : bool) (sw : ChromatekSwitch) (w : World),
    bench_ready sw w ->
    List.length (filter is_pixel_write (calls (poll_levels levels last_state sw w)))
    = changes last_state (map (fun level => level =? GPIO_LOW) levels)
    /\ snd (poll_levels levels last_state sw w)
       = last (map (fun level => level =? GPIO_LOW) levels) last_state
    /\ List.length (filter is_sampling (calls (poll_levels levels last_state sw w)))
       = List.length levels.
Proof.
  induction levels as [| level levels IH]; intros last_state sw w Hready.
  - repeat split.
  - pose proof (bench_ready_button_line sw w level Hready) as Hready0.
    pose proof (bench_read sw _ Hready0) as Hin.
    change (button_line (set_button_line level w)) with level in Hin.
    cbn [poll_levels map changes].
    rewrite (run_poll_step PyError World platform last_state sw _ _ level Hin).
    rewrite last_cons_default.
    destruct (Bool.eqb (level =? GPIO_LOW) last_state) eqn:Hsame.
    + apply Bool.eqb_prop in Hsame.
      unfold result, calls, world. cbn [fst snd].
      destruct (IH last_state sw _ Hready0) as (Hw & Hl & Hs).
      unfold calls in Hw, Hs. cbn [app filter is_pixel_write is_sampling List.length].
      rewrite Hw, Hl, Hs, Hsame. repeat split.
    + assert (Hrange :
                (0 <=? pack (Color (if level =? GPIO_LOW then 0 else 255) 255 0))
                && (pack (Color (if level =? GPIO_LOW then 0 else 255) 255 0) <? 2 ^ 32)
                = true) by (destruct (level =? GPIO_LOW); reflexivity).
      destruct (bench_set_color _ 255 0 sw _ Hready0 Hrange) as (Hres & Hcalls & Hready1).
      unfold result, calls, world in *. cbn [fst snd]. rewrite Hres, Hcalls.
      cbn [fst snd].
      destruct (IH (level =? GPIO_LOW) sw _ Hready1) as (Hw & Hl & Hs).
      unfold calls in Hw, Hs.
      cbn [app filter is_pixel_write is_sampling led_write led_show List.length].
      rewrite Hw, Hl, Hs. repeat split.
Qed.

(** ** The further properties on the bench *)

Lemma registration_survives_failed_subscription_witness :
  _button_event_added fresh_switch = false
  /\ platform subscription (with_faults is_subscription bench)
     = (with_faults is_subscription bench, inl (RuntimeError "hardware fault"))
  /\ run platform (register (Pressed, "on_press"%string) fresh_switch)
         (with_faults is_subscription bench)
     = ([subscription], with_faults is_subscription bench,
        (mkSwitch 255 0%nat ["on_press"%string] [] false,
         inl (RuntimeError "hardware fault"))).
Proof.
  split; [reflexivity | split; [reflexivity |]].
  apply (proj1 (registration_survives_failed_subscription PyError World platform
                  (with_faults is_subscription bench)
                  (with_faults is_subscription bench)
                  fresh_switch (Pressed, "on_press"%string)
                  (RuntimeError "hardware fault") eq_refl eq_refl)).
Defined.

Lemma dispatch_stops_at_raising_listener_witness :
  platform (GPIO_input BUTTON_PIN) (with_faults second_raises pressed_bench)
  = (with_faults second_raises pressed_bench, inr GPIO_LOW)
  /\ listeners_return platform ["first"%string]
       (with_faults second_raises pressed_bench)
     = Some (with_faults second_raises pressed_bench)
  /\ run platform
         (_button_event_handler BUTTON_PIN
            (append_all three_press (subscribed fresh_switch)))
         (with_faults second_raises pressed_bench)
     = ([GPIO_input BUTTON_PIN; Invoke "first"%string; Invoke "second"%string],
        with_faults second_raises pressed_bench,
        (append_all three_press (subscribed fresh_switch),
         inl (RuntimeError "hardware fault"))).
Proof.
  split; [reflexivity | split; [reflexivity |]].
  apply (dispatch_stops_at_raising_listener PyError World platform
           (with_faults second_raises pressed_bench)
           (with_faults second_raises pressed_bench)
           (with_faults second_raises pressed_bench)
           (with_faults second_raises pressed_bench)
           (append_all three_press (subscribed fresh_switch))
           BUTTON_PIN GPIO_LOW ["first"%string] ["third"%string] "second"%string
           (RuntimeError "hardware fault") eq_refl eq_refl eq_refl eq_refl).
Defined.

Lemma unreadable_line_invokes_nothing_witness :
  platform (GPIO_input BUTTON_PIN) released_world
  = (released_world, inl (RuntimeError "channel not set up"))
  /\ invocations (calls (run platform (_button_event_handler BUTTON_PIN released_switch)
                             released_world)) = [].
Proof.
  split; [reflexivity |].
  apply (proj2 (unreadable_line_invokes_nothing PyError World platform
                  released_world released_world released_switch BUTTON_PIN
                  (RuntimeError "channel not set up") eq_refl)).
Defined.

Lemma only_selected_listeners_invoked_witness :
  platform (GPIO_input BUTTON_PIN) pressed_bench = (pressed_bench, inr GPIO_LOW)
  /\ run platform
         (_button_event_handler BUTTON_PIN
            (append_listener (Released, "on_release"%string) (subscribed fresh_switch)))
         pressed_bench
     = ([GPIO_input BUTTON_PIN], pressed_bench,
        (append_listener (Released, "on_release"%string) (subscribed fresh_switch),
         inr tt)).
Proof.
  split; [reflexivity |].
  apply (proj2 (only_selected_listeners_invoked PyError World platform
                  pressed_bench pressed_bench
                  (append_listener (Released, "on_release"%string)
                                   (subscribed fresh_switch))
                  BUTTON_PIN GPIO_LOW eq_refl)).
  reflexivity.
Defined.

Lemma cleanup_skips_gpio_when_led_fails_witness :
  result (run platform (turn_off fresh_switch) (with_faults show_refused bench))
  = inl (RuntimeError "hardware fault")
  /\ result (run platform (cleanup fresh_switch) (with_faults show_refused bench))
     = inl (RuntimeError "hardware fault")
  /\ gpio_mode (world (run platform (cleanup fresh_switch)
                           (with_faults show_refused bench))) = Some BCM.
Proof.
  split; [reflexivity | split; [| reflexivity]].
  apply (proj1 (cleanup_skips_gpio_when_led_fails PyError World platform
                  (with_faults show_refused bench) fresh_switch
                  (RuntimeError "hardware fault") eq_refl)).
Defined.

Lemma scoped_construction_witness :
  result (run platform (__init__ 255 tt) (power_on setup_refused))
  = inl (RuntimeError "hardware fault")
  /\ run platform (scoped 255 (ret (A := Completion unit) Normal))
         (power_on setup_refused)
     = (construction_calls 255 0%nat,
        world (run platform (__init__ 255 tt) (power_on setup_refused)),
        inl (RuntimeError "hardware fault")).
Proof.
  split; [reflexivity |].
  apply (proj1 (scoped_construction PyError World platform unit 255
                  (ret Normal) (power_on setup_refused))
               (RuntimeError "hardware fault") eq_refl).
Defined.

Lemma led_and_button_methods_are_separate_witness :
  led_op (Op_set_color 1 2 3) = true
  /\ filter is_gpio_call
       (calls (run platform (do_op (Op_set_color 1 2 3) fresh_switch) bench)) = [].
Proof.
  split; [reflexivity |].
  apply (proj1 (led_and_button_methods_are_separate PyError World platform
                  (Op_set_color 1 2 3) fresh_switch bench)).
  reflexivity.
Defined.

Lemma session_object_invariants_witness :
  _button_event_added demo_switch = true
  /\ _button_event_added
       (self_after (run platform
                      (session [Op_cleanup; Op_on_button_press "late"%string]
                               demo_switch) bench)) = true.
Proof.
  split; [reflexivity |].
  apply (session_object_invariants PyError World platform
           [Op_cleanup; Op_on_button_press "late"%string] demo_switch bench).
  reflexivity.
Defined.

Lemma no_resubscription_once_flag_set_witness :
  _button_event_added demo_switch = true
  /\ filter is_subscription
       (calls (run platform
                 (session [Op_cleanup; Op_on_button_press "late"%string]
                          demo_switch) bench)) = [].
Proof.
  split; [reflexivity |].
  apply (no_resubscription_once_flag_set PyError World platform
           [Op_cleanup; Op_on_button_press "late"%string] demo_switch bench eq_refl).
Defined.

Lemma poll_step_acts_on_change_only_witness :
  platform (GPIO_input BUTTON_PIN) pressed_bench = (pressed_bench, inr GPIO_LOW)
  /\ run platform (poll_step true fresh_switch) pressed_bench
     = ([GPIO_input BUTTON_PIN], pressed_bench, (fresh_switch, inr true)).
Proof.
  split; [reflexivity |].
  apply (proj1 (poll_step_acts_on_change_only PyError World platform
                  true fresh_switch pressed_bench pressed_bench GPIO_LOW eq_refl)).
  reflexivity.
Defined.

Lemma bench_is_ready : bench_ready fresh_switch bench.
Proof.
  split; [reflexivity | split; [intro c; reflexivity |]].
  exists (mkStrip true 255 [0] None). split; reflexivity.
Defined.

Lemma polling_writes_once_per_change_witness :
  bench_ready fresh_switch bench
  /\ List.length
       (filter is_pixel_write
          (calls (poll_levels [GPIO_LOW; GPIO_LOW; GPIO_HIGH; GPIO_LOW] false
                              fresh_switch bench))) = 3%nat.
Proof.
  split; [exact bench_is_ready |].
  apply (proj1 (polling_writes_once_per_change
                  [GPIO_LOW; GPIO_LOW; GPIO_HIGH; GPIO_LOW] false
                  fresh_switch bench bench_is_ready)).
Defined.

Lemma toggles_follow_led_state_witness :
  result (run platform (toggles 3 (false, fresh_switch)) bench) = inr tt
  /\ self_after (run platform (toggles 3 (false, fresh_switch)) bench)
     = (true, fresh_switch).
Proof.
  split; [reflexivity |].
  apply (proj1 (proj1 (toggles_follow_led_state PyError World platform
                         3 false fresh_switch bench) eq_refl)).
Defined.
